(** * HD108 smart LED strip low level driver: model and verified properties

    A shallow embedding of [src/src/HD108_lld.c] and [src/include/HD108_lld.h].

    Target assumptions, as the driver states them itself ("little endian
    (ESP32)" in [hd108_lld_copy_pixel]): the host stores a 16-bit word
    least-significant byte first, bit-fields of a storage unit are allocated
    from its least-significant bit upwards (GCC on ESP32), [int], [long] and
    [size_t] are 32 bits wide.

    Integers are [Z] with the C wrap-around written out, bytes are [Z] in
    [0, 255], the TX buffer is a [list Z] of bytes addressed with stdpp's
    lookup and insert. *)

From Stdlib Require Import ZArith Lia Bool.
From stdpp Require Import base option list.

Local Open Scope Z_scope.

(** ** Fixed-width integers *)

Definition to_uint16 (z : Z) : Z := z mod 2 ^ 16.
Definition to_uint32 (z : Z) : Z := z mod 2 ^ 32.

Definition is_uint16 (z : Z) : Prop := 0 <= z < 2 ^ 16.

(** ** Constants of the driver *)

Definition HD108_LLD_NUM_OF_0S : Z := 16.
Definition HD108_LLD_MIN_COUNT : Z := 1.
Definition HD108_LLD_MAX_COUNT : Z := 1024.
Definition HD108_LLD_MAX_SPI_SPEED : Z := 40000000.

(** [NULL], for the function pointer [callback_update]. *)
Definition NULL : Z := 0.

(** ** Enumerations of the header *)

Inductive hd108_status_t : Type :=
  | HD108_LLD_OK
  | HD108_LLD_ERROR_UNKNOWN
  | HD108_LLD_ERROR_INVALID
  | HD108_LLD_ERROR_SPI_IN_USE
  | HD108_LLD_ERROR_NO_DMA
  | HD108_LLD_ERROR_NO_MEMORY
  | HD108_LLD_ERROR_NO_CS
  | HD108_LLD_ERROR_LENGTH
  | HD108_LLD_ERROR_INDEX
  | HD108_LLD_ERROR_DATA_RATE.

Inductive hd108_update_frequency_hz_t : Type :=
  | HD108_LLD_UPDATE_1HZ
  | HD108_LLD_UPDATE_2HZ
  | HD108_LLD_UPDATE_5HZ
  | HD108_LLD_UPDATE_10HZ
  | HD108_LLD_UPDATE_20HZ
  | HD108_LLD_UPDATE_24HZ
  | HD108_LLD_UPDATE_25HZ
  | HD108_LLD_UPDATE_30HZ
  | HD108_LLD_UPDATE_50HZ
  | HD108_LLD_UPDATE_60HZ
  | HD108_LLD_UPDATE_100HZ
  | HD108_LLD_UPDATE_120HZ.

(** The integer value of an enumerator. *)
Definition hz (f : hd108_update_frequency_hz_t) : Z :=
  match f with
  | HD108_LLD_UPDATE_1HZ => 1
  | HD108_LLD_UPDATE_2HZ => 2
  | HD108_LLD_UPDATE_5HZ => 5
  | HD108_LLD_UPDATE_10HZ => 10
  | HD108_LLD_UPDATE_20HZ => 20
  | HD108_LLD_UPDATE_24HZ => 24
  | HD108_LLD_UPDATE_25HZ => 25
  | HD108_LLD_UPDATE_30HZ => 30
  | HD108_LLD_UPDATE_50HZ => 50
  | HD108_LLD_UPDATE_60HZ => 60
  | HD108_LLD_UPDATE_100HZ => 100
  | HD108_LLD_UPDATE_120HZ => 120
  end.

(** ** The pixel descriptor and its object representation *)

(** [hd108_pixel_t]: three 5-bit current levels, the unnamed 1-bit field
    ([rsv], "restricted (start bit in SPI data)"), three 16-bit colours. *)
Record hd108_pixel_t : Type := mk_pixel {
  cl_blue : Z;
  cl_green : Z;
  cl_red : Z;
  rsv : bool;
  red : Z;
  green : Z;
  blue : Z
}.

(** The values a descriptor can hold in C. *)
Definition pixel_ok (p : hd108_pixel_t) : Prop :=
  0 <= cl_blue p < 32 /\ 0 <= cl_green p < 32 /\ 0 <= cl_red p < 32 /\
  is_uint16 (red p) /\ is_uint16 (green p) /\ is_uint16 (blue p).

Definition sizeof_hd108_pixel_t : Z := 8.

(** The first 16-bit storage unit: [cl_blue] in bits 0-4, [cl_green] in bits
    5-9, [cl_red] in bits 10-14, the unnamed bit in bit 15. *)
Definition pixel_word0 (p : hd108_pixel_t) : Z :=
  Z.lor (Z.land (cl_blue p) 31)
    (Z.lor (Z.shiftl (Z.land (cl_green p) 31) 5)
       (Z.lor (Z.shiftl (Z.land (cl_red p) 31) 10)
          (Z.shiftl (Z.b2z (rsv p)) 15))).

(** The four 16-bit words of the descriptor, in memory order. *)
Definition pixel_word (p : hd108_pixel_t) (k : Z) : Z :=
  if k =? 0 then pixel_word0 p
  else if k =? 1 then to_uint16 (red p)
  else if k =? 2 then to_uint16 (green p)
  else to_uint16 (blue p).

(** [((const uint8_t * )src)[k]] for [0 <= k < 8]: byte [k] of the
    descriptor, each word stored least-significant byte first. *)
Definition src_raw (p : hd108_pixel_t) (k : Z) : Z :=
  let w := pixel_word p (k / 2) in
  if Z.even k then Z.land w 255 else Z.land (Z.shiftr w 8) 255.

(** [hd108_pixel_data_t] overlays the first storage unit: 15 unnamed bits,
    then [bit_start], which is therefore bit 15 of that unit, the bit of the
    descriptor's unnamed field. [pixel_data->bit_start = 1]: *)
Definition set_bit_start (p : hd108_pixel_t) : hd108_pixel_t :=
  mk_pixel (cl_blue p) (cl_green p) (cl_red p) true (red p) (green p) (blue p).

(** ** The driver context *)

(** The two members of [spi_transaction_t] the driver assigns; [tx_buffer]
    is modelled by the bytes it points to, which the context owns. *)
Record spi_transaction_t : Type := mk_transaction {
  tx_buffer : list Z;
  trans_length : Z
}.

Record hd108_ctx_t : Type := mk_ctx {
  device_handle : Z;
  transaction : spi_transaction_t;
  callback : Z;
  strip_length : Z
}.

Definition with_tx_buffer (ctx : hd108_ctx_t) (buf : list Z) : hd108_ctx_t :=
  mk_ctx (device_handle ctx)
    (mk_transaction buf (trans_length (transaction ctx)))
    (callback ctx) (strip_length ctx).

(** What [hd108_lld_init] establishes for a context it hands out. *)
Definition ctx_ok (ctx : hd108_ctx_t) : Prop :=
  HD108_LLD_MIN_COUNT <= strip_length ctx <= HD108_LLD_MAX_COUNT /\
  Z.of_nat (length (tx_buffer (transaction ctx)))
    = HD108_LLD_NUM_OF_0S + sizeof_hd108_pixel_t * strip_length ctx.

(** ** Stores into the TX buffer *)

(** [buf[off] = v]. A store outside the buffer is undefined behaviour in C;
    the model stops with [None] there. *)
Definition store (buf : list Z) (off v : Z) : option (list Z) :=
  if bool_decide (0 <= off < Z.of_nat (length buf))
  then Some (<[Z.to_nat off := v]> buf)
  else None.

(** [hd108_lld_copy_pixel], [dst] given as the buffer and the offset of the
    destination in it. *)
Definition hd108_lld_copy_pixel (src : hd108_pixel_t) (buf : list Z) (dst : Z)
  : option (list Z) :=
  buf ← store buf (dst + 0) (src_raw src 1);
  buf ← store buf (dst + 1) (src_raw src 0);
  buf ← store buf (dst + 2) (src_raw src 3);
  buf ← store buf (dst + 3) (src_raw src 2);
  buf ← store buf (dst + 4) (src_raw src 5);
  buf ← store buf (dst + 5) (src_raw src 4);
  buf ← store buf (dst + 6) (src_raw src 7);
  store buf (dst + 7) (src_raw src 6).

(** The offset [HD108_LLD_NUM_OF_0S + sizeof(hd108_pixel_t) * index] that
    [hd108_lld_set_pixel] adds to the buffer address ([size_t] arithmetic). *)
Definition slot_offset (index : Z) : Z :=
  to_uint32 (HD108_LLD_NUM_OF_0S + to_uint32 (sizeof_hd108_pixel_t * index)).

(** [hd108_lld_set_pixel]: the status, the context and the caller's
    descriptor after the call. *)
Definition hd108_lld_set_pixel (ctx : hd108_ctx_t) (index : Z)
    (pixel : hd108_pixel_t)
  : option (hd108_status_t * hd108_ctx_t * hd108_pixel_t) :=
  if index >=? strip_length ctx then
    Some (HD108_LLD_ERROR_INDEX, ctx, pixel)
  else
    let pixel := set_bit_start pixel in
    let dst := tx_buffer (transaction ctx) in
    buf ← hd108_lld_copy_pixel pixel dst (slot_offset index);
    Some (HD108_LLD_OK, with_tx_buffer ctx buf, pixel).

(** The 8 bytes of the wire slot of pixel [index] in a buffer. *)
Definition wire_slot (buf : list Z) (index : Z) : list Z :=
  take 8 (drop (Z.to_nat (HD108_LLD_NUM_OF_0S + 8 * index)) buf).

(** ** The platform: ESP-IDF and the C library *)

(** [esp_err_t], with every code the driver does not name under
    [ESP_ERR_other]. *)
Inductive esp_err_t : Type :=
  | ESP_OK
  | ESP_ERR_NO_MEM
  | ESP_ERR_INVALID_ARG
  | ESP_ERR_INVALID_STATE
  | ESP_ERR_NOT_FOUND
  | ESP_ERR_other (code : Z).

(** [ESP_OK == err] *)
Definition is_ESP_OK (err : esp_err_t) : bool :=
  match err with ESP_OK => true | _ => false end.

Inductive heap_object : Type := the_ctx | the_buffer.

(** The calls the driver makes to its collaborators, with the arguments that
    depend on the configuration. *)
Inductive event : Type :=
  | Ev_calloc
  | Ev_heap_caps_malloc (size : Z)
  | Ev_free (o : heap_object)
  | Ev_spi_bus_initialize (host mosi_io_num sclk_io_num max_transfer_sz : Z)
  | Ev_spi_bus_add_device (host clock_speed_hz : Z)
  | Ev_esp_timer_create
  | Ev_esp_timer_start_periodic (period : Z)
  | Ev_esp_timer_delete.

(** What the collaborators answer during one initialization. A block from
    [heap_caps_malloc] has unspecified content, [heap_garbage]. *)
Record platform : Type := mk_platform {
  calloc_ok : bool;
  heap_caps_malloc_ok : bool;
  heap_garbage : nat -> Z;
  spi_bus_initialize_res : esp_err_t;
  spi_bus_add_device_res : esp_err_t;
  spi_bus_add_device_handle : Z;
  esp_timer_create_res : esp_err_t;
  esp_timer_start_periodic_res : esp_err_t
}.

(** ** A monad for C functions with early [return] that call the platform

    A computation threads the list of calls made so far (latest last) and
    either leaves the function with its return value ([inl]) or goes on with
    a value ([inr]). *)
Definition M (R A : Type) : Type := list event -> (R + A) * list event.

Definition ret {R A} (a : A) : M R A := fun tr => (inr a, tr).

Definition return_ {R A} (r : R) : M R A := fun tr => (inl r, tr).

Definition bind {R A B} (m : M R A) (k : A -> M R B) : M R B :=
  fun tr =>
    match m tr with
    | (inl r, tr') => (inl r, tr')
    | (inr a, tr') => k a tr'
    end.

Definition call {R} (e : event) : M R unit := fun tr => (inr tt, tr ++ [e]).

(** A function body run to its end: its return value and the calls made. *)
Definition run {R} (m : M R R) (tr : list event) : R * list event :=
  match m tr with
  | (inl r, tr') => (r, tr')
  | (inr r, tr') => (r, tr')
  end.

(** A call of another function of the driver. *)
Definition call_fn {R R'} (m : M R' R') : M R R' :=
  fun tr => let '(r, tr') := run m tr in (inr r, tr').

#[global] Instance M_ret {R} : MRet (M R) := @ret R.
#[global] Instance M_bind {R} : MBind (M R) := fun A B k m => bind m k.

(** [if (b) { m }] *)
Definition when {R} (b : bool) (m : M R unit) : M R unit :=
  if b then m else ret tt.

(** ** The configuration *)

Record hd108_configuration_t : Type := mk_configuration {
  spi_host : Z;
  spi_speed_hz : Z;
  pin_mosi : Z;
  pin_clk : Z;
  count : Z;
  frequency_hz : hd108_update_frequency_hz_t;
  update_function : Z
}.

(** ** Initialization *)

(** [hd108_get_update_period_time]: [1000000 / freq_hz], C division
    (truncating), returned as [uint32_t]. *)
Definition hd108_get_update_period_time (freq_hz : hd108_update_frequency_hz_t)
  : Z :=
  to_uint32 (Z.quot 1000000 (hz freq_hz)).

Section Init.

Variable P : platform.

(** [hd108_lld_start_timer_for_ctx]. *)
Definition hd108_lld_start_timer_for_ctx (freq : hd108_update_frequency_hz_t)
  : M esp_err_t esp_err_t :=
  call Ev_esp_timer_create ;;
  let err := esp_timer_create_res P in
  when (negb (is_ESP_OK err)) (return_ err) ;;
  call (Ev_esp_timer_start_periodic (hd108_get_update_period_time freq)) ;;
  let err := esp_timer_start_periodic_res P in
  when (negb (is_ESP_OK err)) (call Ev_esp_timer_delete ;; return_ err) ;;
  ret err.

(** [free(buffer); free(ctx); return st;] *)
Definition rollback {A} (st : hd108_status_t) : M hd108_status_t A :=
  call (Ev_free the_buffer) ;; call (Ev_free the_ctx) ;; return_ st.

(** [uint16_t buffer_len = HD108_LLD_NUM_OF_0S + count * sizeof(hd108_pixel_t)]. *)
Definition buffer_len_of (cfg : hd108_configuration_t) : Z :=
  to_uint16
    (to_uint32 (HD108_LLD_NUM_OF_0S
                + to_uint32 (count cfg * sizeof_hd108_pixel_t))).

(** [uint32_t rate = buffer_len * 8 * frequency_hz * 2]. *)
Definition rate_of (cfg : hd108_configuration_t) : Z :=
  to_uint32 (buffer_len_of cfg * 8 * hz (frequency_hz cfg) * 2).

(** [memset(buffer, c, n)] on a block. *)
Definition memset (block : list Z) (c : Z) (n : Z) : list Z :=
  replicate (Z.to_nat n) c ++ drop (Z.to_nat n) block.

(** The body of [hd108_lld_init] up to the assignment of the out
    parameter; it goes on with the context that is handed out. *)
Definition hd108_lld_init_body (cfg : hd108_configuration_t)
  : M hd108_status_t hd108_ctx_t :=
  (* check strip length *)
  when ((HD108_LLD_MIN_COUNT >? count cfg) || (HD108_LLD_MAX_COUNT <? count cfg))
    (return_ HD108_LLD_ERROR_LENGTH) ;;
  (* check SPI frequency *)
  when (HD108_LLD_MAX_SPI_SPEED <? spi_speed_hz cfg)
    (return_ HD108_LLD_ERROR_INVALID) ;;
  (* check callback function *)
  when (NULL =? update_function cfg)
    (return_ HD108_LLD_ERROR_INVALID) ;;
  (* check data rate *)
  let buffer_len := buffer_len_of cfg in
  let rate := rate_of cfg in
  when (rate >? spi_speed_hz cfg)
    (return_ HD108_LLD_ERROR_DATA_RATE) ;;
  (* allocate memory for context *)
  call Ev_calloc ;;
  when (negb (calloc_ok P)) (return_ HD108_LLD_ERROR_NO_MEMORY) ;;
  (* allocate memory for LED strip data (TX buffer) *)
  call (Ev_heap_caps_malloc buffer_len) ;;
  when (negb (heap_caps_malloc_ok P))
    (call (Ev_free the_ctx) ;; return_ HD108_LLD_ERROR_NO_MEMORY) ;;
  let buffer := map (heap_garbage P) (seq 0 (Z.to_nat buffer_len)) in
  (* initialize TX buffer *)
  let buffer := memset buffer 0 buffer_len in
  (* initialize transaction *)
  let ctx := mk_ctx 0 (mk_transaction buffer (to_uint32 (8 * buffer_len)))
               (update_function cfg) (count cfg) in
  (* init SPI bus *)
  call (Ev_spi_bus_initialize (spi_host cfg) (pin_mosi cfg) (pin_clk cfg)
          buffer_len) ;;
  match spi_bus_initialize_res P with
  | ESP_ERR_INVALID_ARG => rollback HD108_LLD_ERROR_INVALID
  | ESP_ERR_INVALID_STATE => rollback HD108_LLD_ERROR_SPI_IN_USE
  | ESP_ERR_NOT_FOUND => rollback HD108_LLD_ERROR_NO_DMA
  | ESP_ERR_NO_MEM => rollback HD108_LLD_ERROR_NO_MEMORY
  | ESP_OK => ret tt
  | ESP_ERR_other _ => rollback HD108_LLD_ERROR_UNKNOWN
  end ;;
  (* init SPI device *)
  call (Ev_spi_bus_add_device (spi_host cfg) (spi_speed_hz cfg)) ;;
  match spi_bus_add_device_res P with
  | ESP_ERR_INVALID_ARG => rollback HD108_LLD_ERROR_INVALID
  | ESP_ERR_NOT_FOUND => rollback HD108_LLD_ERROR_NO_CS
  | ESP_ERR_NO_MEM => rollback HD108_LLD_ERROR_NO_MEMORY
  | ESP_OK => ret tt
  | ESP_ERR_INVALID_STATE | ESP_ERR_other _ => rollback HD108_LLD_ERROR_UNKNOWN
  end ;;
  let ctx := mk_ctx (spi_bus_add_device_handle P) (transaction ctx)
               (callback ctx) (strip_length ctx) in
  err ← call_fn (hd108_lld_start_timer_for_ctx (frequency_hz cfg));
  match err with
  | ESP_ERR_INVALID_ARG => rollback HD108_LLD_ERROR_INVALID
  | ESP_ERR_INVALID_STATE => rollback HD108_LLD_ERROR_SPI_IN_USE
  | ESP_ERR_NO_MEM => rollback HD108_LLD_ERROR_NO_MEMORY
  | ESP_OK => ret tt
  | ESP_ERR_NOT_FOUND | ESP_ERR_other _ => rollback HD108_LLD_ERROR_UNKNOWN
  end ;;
  ret ctx.

(** The outcome of [hd108_lld_init]: the status, the context stored through
    [ctx_out] if the function stored one, and the calls it made. *)
Record init_result : Type := mk_init_result {
  init_status : hd108_status_t;
  init_ctx_out : option hd108_ctx_t;
  init_calls : list event
}.

(** [hd108_lld_init]: the body, then [*ctx_out = ctx; return HD108_LLD_OK;]. *)
Definition hd108_lld_init (cfg : hd108_configuration_t) : init_result :=
  match hd108_lld_init_body cfg [] with
  | (inl st, calls) => mk_init_result st None calls
  | (inr ctx, calls) => mk_init_result HD108_LLD_OK (Some ctx) calls
  end.

End Init.

(** ** Sequences of pixel updates *)

(** The calls [hd108_lld_set_pixel(ctx, index, &pixel)] of a list, in order,
    on one context. *)
Fixpoint set_pixels (ctx : hd108_ctx_t) (calls : list (Z * hd108_pixel_t))
  : option hd108_ctx_t :=
  match calls with
  | [] => Some ctx
  | (index, pixel) :: rest =>
      r ← hd108_lld_set_pixel ctx index pixel;
      set_pixels (r.1.2) rest
  end.

(** ** The wire format, as the documentation gives it

    "One pixel is represented on 4 uint16_t. The first bit is the start
    bit, and is always 1. Then 3 x 5 bit for driving current (RGB). Then
    3 x 16 bit for color intensity (RGB)", each word big endian. *)

(** A 16-bit word, most-significant byte first. *)
Definition be16 (w : Z) : list Z := [Z.land (Z.shiftr w 8) 255; Z.land w 255].

(** [0x8000 | (cl_red << 10) | (cl_green << 5) | cl_blue]. *)
Definition wire_word0 (p : hd108_pixel_t) : Z :=
  Z.lor (Z.lor (Z.lor 32768 (Z.shiftl (cl_red p) 10))
           (Z.shiftl (cl_green p) 5))
    (cl_blue p).

Definition wire_format (p : hd108_pixel_t) : list Z :=
  be16 (wire_word0 p) ++ be16 (red p) ++ be16 (green p) ++ be16 (blue p).

(** The bytes [hd108_lld_copy_pixel] stores, in the order of their
    destination. *)
Definition copied_bytes (src : hd108_pixel_t) : list Z :=
  [src_raw src 1; src_raw src 0; src_raw src 3; src_raw src 2;
   src_raw src 5; src_raw src 4; src_raw src 7; src_raw src 6].

(** The periods with which a list of calls starts the periodic timer. *)
Definition timer_periods (calls : list event) : list Z :=
  omap (fun e => match e with
                 | Ev_esp_timer_start_periodic period => Some period
                 | _ => None
                 end) calls.

(** ** Concrete inputs *)

(** A context for a strip of two pixels with a blank frame. *)
Definition strip2 : hd108_ctx_t :=
  mk_ctx 0 (mk_transaction (replicate 32 0) 256) 1 2.

(** The descriptor with current levels 3 (red), 7 (green), 15 (blue) and
    colours 0x1234, 0x5678, 0x9ABC; [s] is the unnamed bit. *)
Definition pixel_3_7_15 (s : bool) : hd108_pixel_t :=
  mk_pixel 15 7 3 s 0x1234 0x5678 0x9ABC.

(** A platform on which every call succeeds, and a configuration for two
    pixels at 10 Hz on a 1 MHz bus. *)
Definition willing : platform :=
  mk_platform true true (fun _ => 0xA5) ESP_OK ESP_OK 5 ESP_OK ESP_OK.

Definition two_pixels_10hz : hd108_configuration_t :=
  mk_configuration 1 1000000 23 18 2 HD108_LLD_UPDATE_10HZ 0x40080000.

(** ** The timer tick *)

(** The calls of a tick: the transfer queued, with the bytes of the TX buffer
    at that moment and the length given in bits, the wait for its result,
    and the call of the update function. *)
Inductive bus_event : Type :=
  | Ev_spi_device_queue_trans (handle : Z) (tx : list Z) (length_bits : Z)
  | Ev_spi_device_get_trans_result (handle : Z)
  | Ev_callback (fn : Z).

(** [hd108_lld_periodic_timer_callback]. The update function is the
    caller's; [updates] are the calls of [hd108_lld_set_pixel] it makes on
    this context during the tick, the one way the interface gives it to
    change the frame. *)
Definition hd108_lld_periodic_timer_callback (ctx : hd108_ctx_t)
    (updates : list (Z * hd108_pixel_t))
  : option (hd108_ctx_t * list bus_event) :=
  let queued :=
    Ev_spi_device_queue_trans (device_handle ctx)
      (tx_buffer (transaction ctx)) (trans_length (transaction ctx)) in
  let waited := Ev_spi_device_get_trans_result (device_handle ctx) in
  ctx' ← set_pixels ctx updates;
  Some (ctx', [queued; waited; Ev_callback (callback ctx)]).

(** The ticks of the periodic timer, one after the other. *)
Fixpoint timer_ticks (ctx : hd108_ctx_t)
    (ticks : list (list (Z * hd108_pixel_t)))
  : option (hd108_ctx_t * list bus_event) :=
  match ticks with
  | [] => Some (ctx, [])
  | updates :: rest =>
      r ← hd108_lld_periodic_timer_callback ctx updates;
      r' ← timer_ticks r.1 rest;
      Some (r'.1, r.2 ++ r'.2)
  end.

(** The frames queued for the bus, in order. *)
Definition frames_sent (log : list bus_event) : list (list Z) :=
  omap (fun e => match e with
                 | Ev_spi_device_queue_trans _ tx _ => Some tx
                 | _ => None
                 end) log.

(** ** Vocabulary of the properties *)

(** A buffer with the eight bytes at [n] replaced by [bs]. *)
Definition splice (buf : list Z) (n : nat) (bs : list Z) : list Z :=
  take n buf ++ bs ++ drop (n + 8) buf.

(** The descriptor of the last call for pixel [i] in a list of calls. *)
Fixpoint last_update (calls : list (Z * hd108_pixel_t)) (i : Z)
  : option hd108_pixel_t :=
  match calls with
  | [] => None
  | (j, p) :: rest =>
      match last_update rest i with
      | Some q => Some q
      | None => if j =? i then Some p else None
      end
  end.

(** The blocks released by a list of calls, and the blocks the platform
    handed out in it. *)
Definition frees (calls : list event) : list heap_object :=
  omap (fun e => match e with Ev_free o => Some o | _ => None end) calls.

Definition obtained (P : platform) (calls : list event) : list heap_object :=
  omap (fun e => match e with
                 | Ev_calloc => if calloc_ok P then Some the_ctx else None
                 | Ev_heap_caps_malloc _ =>
                     if heap_caps_malloc_ok P then Some the_buffer else None
                 | _ => None
                 end) calls.

(** A configuration that passes the four checks of [hd108_lld_init], and a
    platform on which every call succeeds. *)
Definition config_valid (cfg : hd108_configuration_t) : Prop :=
  1 <= count cfg <= 1024 /\
  spi_speed_hz cfg <= 40000000 /\
  update_function cfg <> NULL /\
  (16 + 8 * count cfg) * 8 * hz (frequency_hz cfg) * 2 <= spi_speed_hz cfg.

Definition platform_succeeds (P : platform) : Prop :=
  calloc_ok P = true /\ heap_caps_malloc_ok P = true /\
  spi_bus_initialize_res P = ESP_OK /\ spi_bus_add_device_res P = ESP_OK /\
  esp_timer_create_res P = ESP_OK /\ esp_timer_start_periodic_res P = ESP_OK.

(** What the strip reads from the eight bytes of a slot: four big-endian
    16-bit words, the first split into start bit and current levels. *)
Definition decode_slot (bs : list Z) : option hd108_pixel_t :=
  match bs with
  | [b0; b1; b2; b3; b4; b5; b6; b7] =>
      let w0 := b0 * 256 + b1 in
      Some (mk_pixel (Z.land w0 31) (Z.land (Z.shiftr w0 5) 31)
              (Z.land (Z.shiftr w0 10) 31) (Z.testbit w0 15)
              (b2 * 256 + b3) (b4 * 256 + b5) (b6 * 256 + b7))
  | _ => None
  end.

(** A frame as the strip expects it from a context: the transfer goes to
    the device of the context, carries [16 + 8 * strip_length] bytes and
    says so in bits, and starts with 16 zero bytes. *)
Definition frame_ok (ctx : hd108_ctx_t) (e : bus_event) : Prop :=
  match e with
  | Ev_spi_device_queue_trans handle tx length_bits =>
      handle = device_handle ctx /\
      Z.of_nat (length tx) = 16 + 8 * strip_length ctx /\
      length_bits = 8 * Z.of_nat (length tx) /\
      take 16 tx = replicate 16 0 /\
      Forall (fun b => 0 <= b < 256) tx
  | _ => True
  end.

(** A byte. *)
Definition is_uint8 (z : Z) : Prop := 0 <= z < 256.

(** A call the C interface admits: an index of type [uint16_t] and a
    descriptor with 5-bit levels and 16-bit colours. *)
Definition call_ok (c : Z * hd108_pixel_t) : Prop :=
  is_uint16 c.1 /\ pixel_ok c.2.

(** What the ticks keep: the context well-formed, its bytes bytes, its
    padding zero, and the bit length of the transaction that of the
    buffer. *)
Definition tick_inv (ctx : hd108_ctx_t) : Prop :=
  ctx_ok ctx /\
  Forall is_uint8 (tx_buffer (transaction ctx)) /\
  take 16 (tx_buffer (transaction ctx)) = replicate 16 0 /\
  trans_length (transaction ctx)
  = 8 * Z.of_nat (length (tx_buffer (transaction ctx))).

(** * Properties *)

(** ** Arithmetic of the fixed-width types *)

Lemma to_uint32_small z : 0 <= z < 2 ^ 32 -> to_uint32 z = z.
Proof. intros H. unfold to_uint32. by apply Z.mod_small. Qed.

Lemma to_uint16_small z : is_uint16 z -> to_uint16 z = z.
Proof. intros H. unfold to_uint16. by apply Z.mod_small. Qed.

Lemma slot_offset_uint16 index :
  is_uint16 index -> slot_offset index = 16 + 8 * index.
Proof.
  unfold is_uint16, slot_offset, HD108_LLD_NUM_OF_0S, sizeof_hd108_pixel_t.
  intros H. rewrite (to_uint32_small (8 * index)) by lia.
  rewrite to_uint32_small; lia.
Qed.

(** A multiple of [2 ^ n] lies above the bits of [a < 2 ^ n]: OR adds. *)
Lemma lor_mul_add a b n :
  0 <= n -> 0 <= a < 2 ^ n -> Z.lor a (b * 2 ^ n) = a + b * 2 ^ n.
Proof.
  intros Hn Ha. rewrite <- (Z.shiftl_mul_pow2 b n) by done.
  assert (Hdisj : Z.land a (Z.shiftl b n) = 0).
  { apply Z.bits_inj'. intros k Hk.
    rewrite Z.land_spec, Z.bits_0.
    destruct (Z.lt_ge_cases k n) as [Hlt | Hge].
    - rewrite (Z.shiftl_spec_low b n k Hlt). apply andb_false_r.
    - rewrite <- (Z.mod_small a (2 ^ n)) by lia.
      rewrite Z.mod_pow2_bits_high by lia. reflexivity. }
  by rewrite <- Z.lxor_lor, <- Z.add_nocarry_lxor.
Qed.

Lemma land_31 a : 0 <= a < 32 -> Z.land a 31 = a.
Proof.
  intros H. change 31 with (Z.ones 5).
  rewrite Z.land_ones by lia. by apply Z.mod_small.
Qed.

Lemma land_255 a : Z.land a 255 = a mod 256.
Proof. change 255 with (Z.ones 8). by rewrite Z.land_ones by lia. Qed.

(** ** The object representation of a descriptor *)

(** The first word as a number. *)
Lemma pixel_word0_value p :
  pixel_ok p ->
  pixel_word0 p
  = cl_blue p + cl_green p * 32 + cl_red p * 1024 + Z.b2z (rsv p) * 32768.
Proof.
  intros (Hb & Hg & Hr & _). unfold pixel_word0.
  rewrite !land_31 by done.
  assert (0 <= Z.b2z (rsv p) < 2) by (destruct (rsv p); simpl; lia).
  rewrite !Z.shiftl_mul_pow2 by lia.
  rewrite (lor_mul_add (cl_red p * 2 ^ 10) _ 15) by lia.
  replace (cl_red p * 2 ^ 10 + Z.b2z (rsv p) * 2 ^ 15)
    with ((cl_red p + Z.b2z (rsv p) * 32) * 2 ^ 10) by lia.
  rewrite (lor_mul_add (cl_green p * 2 ^ 5) _ 10) by lia.
  replace (cl_green p * 2 ^ 5 + (cl_red p + Z.b2z (rsv p) * 32) * 2 ^ 10)
    with ((cl_green p + cl_red p * 32 + Z.b2z (rsv p) * 1024) * 2 ^ 5) by lia.
  rewrite (lor_mul_add (cl_blue p) _ 5) by lia.
  lia.
Qed.

(** Storing through [bit_start] is an OR of bit 15 into the first word and
    changes no other word: the overlay addresses the descriptor's unnamed
    bit. *)
Lemma set_bit_start_word0 p :
  pixel_ok p -> pixel_word0 (set_bit_start p) = Z.lor (pixel_word0 p) 32768.
Proof.
  intros Hp.
  assert (Hp' : pixel_ok (set_bit_start p)) by exact Hp.
  rewrite (pixel_word0_value _ Hp'), (pixel_word0_value _ Hp). simpl.
  destruct Hp as (Hb & Hg & Hr & _).
  change 32768 with (1 * 2 ^ 15).
  destruct (rsv p); simpl Z.b2z.
  - rewrite <- (lor_mul_add _ 1 15) by lia.
    by rewrite <- Z.lor_assoc, Z.lor_diag.
  - rewrite (lor_mul_add _ 1 15) by lia. lia.
Qed.

Lemma set_bit_start_words p k :
  k <> 0 -> pixel_word (set_bit_start p) k = pixel_word p k.
Proof.
  intros Hk. unfold pixel_word.
  destruct (k =? 0) eqn:E; [apply Z.eqb_eq in E; lia | reflexivity].
Qed.

Lemma src_raw_byte p k : 0 <= src_raw p k < 256.
Proof.
  unfold src_raw. destruct (Z.even k); rewrite land_255;
    apply Z.mod_pos_bound; lia.
Qed.

(** ** Stores and the pixel copy *)

Lemma store_Some_inv buf off v buf' :
  store buf off v = Some buf' ->
  0 <= off < Z.of_nat (length buf) /\ length buf' = length buf.
Proof.
  unfold store. case_bool_decide as Hoff; [|done].
  intros [= <-]. split; [done|]. apply length_insert.
Qed.

Lemma store_app pre l j v :
  0 <= j < Z.of_nat (length l) ->
  store (pre ++ l) (Z.of_nat (length pre) + j) v
  = Some (pre ++ <[Z.to_nat j := v]> l).
Proof.
  intros Hj. unfold store. rewrite bool_decide_eq_true_2.
  - f_equal.
    replace (Z.to_nat (Z.of_nat (length pre) + j))
      with (length pre + Z.to_nat j)%nat by lia.
    apply insert_app_r.
  - rewrite length_app. lia.
Qed.

(** On a buffer split around the destination, the copy replaces the eight
    bytes of the destination and nothing else. *)
Lemma copy_pixel_app src pre b0 b1 b2 b3 b4 b5 b6 b7 post :
  hd108_lld_copy_pixel src
    (pre ++ [b0; b1; b2; b3; b4; b5; b6; b7] ++ post)
    (Z.of_nat (length pre))
  = Some (pre ++ copied_bytes src ++ post).
Proof.
  unfold hd108_lld_copy_pixel.
  repeat (rewrite store_app by (simpl; lia); simpl).
  reflexivity.
Qed.

Lemma split_slot (buf : list Z) (n : nat) :
  (n + 8 <= length buf)%nat ->
  exists b0 b1 b2 b3 b4 b5 b6 b7,
    buf = take n buf ++ [b0; b1; b2; b3; b4; b5; b6; b7] ++ drop (n + 8) buf.
Proof.
  intros Hlen.
  assert (Hd : length (take 8 (drop n buf)) = 8%nat).
  { rewrite length_take, length_drop. lia. }
  destruct (take 8 (drop n buf))
    as [|b0 [|b1 [|b2 [|b3 [|b4 [|b5 [|b6 [|b7 [|? ?]]]]]]]]] eqn:E;
    try discriminate Hd.
  exists b0, b1, b2, b3, b4, b5, b6, b7.
  rewrite <- E, <- drop_drop, take_drop, take_drop. reflexivity.
Qed.

Lemma copy_pixel_Some src buf dst :
  0 <= dst -> dst + 8 <= Z.of_nat (length buf) ->
  hd108_lld_copy_pixel src buf dst
  = Some (take (Z.to_nat dst) buf ++ copied_bytes src
          ++ drop (Z.to_nat dst + 8) buf).
Proof.
  intros Hdst Hlen.
  destruct (split_slot buf (Z.to_nat dst)) as (b0&b1&b2&b3&b4&b5&b6&b7&E);
    [lia|].
  assert (Hpre : dst = Z.of_nat (length (take (Z.to_nat dst) buf)))
    by (rewrite length_take; lia).
  pose proof (copy_pixel_app src (take (Z.to_nat dst) buf)
                b0 b1 b2 b3 b4 b5 b6 b7 (drop (Z.to_nat dst + 8) buf)) as H.
  by rewrite <- E, <- Hpre in H.
Qed.

Lemma copy_pixel_Some_inv src buf dst buf' :
  hd108_lld_copy_pixel src buf dst = Some buf' ->
  0 <= dst /\ dst + 8 <= Z.of_nat (length buf).
Proof.
  unfold hd108_lld_copy_pixel. intros H.
  repeat match type of H with
  | mbind _ ?m = Some _ =>
      let E := fresh "E" in
      destruct m eqn:E; simpl in H; [apply store_Some_inv in E | done]
  end.
  apply store_Some_inv in H. lia.
Qed.

(** ** The pixel update *)

(** What a call that reports success has done. *)
Lemma set_pixel_OK_inv ctx index p ctx' p' :
  is_uint16 index ->
  hd108_lld_set_pixel ctx index p = Some (HD108_LLD_OK, ctx', p') ->
  let buf := tx_buffer (transaction ctx) in
  let n := Z.to_nat (16 + 8 * index) in
  index < strip_length ctx /\
  (n + 8 <= length buf)%nat /\
  p' = set_bit_start p /\
  ctx' = with_tx_buffer ctx
           (take n buf ++ copied_bytes (set_bit_start p) ++ drop (n + 8) buf).
Proof.
  intros Hi. unfold hd108_lld_set_pixel.
  destruct (index >=? strip_length ctx) eqn:Hge; [done|].
  rewrite Z.geb_leb in Hge. apply Z.leb_gt in Hge.
  rewrite slot_offset_uint16 by done.
  destruct (hd108_lld_copy_pixel _ _ _) as [buf'|] eqn:Hcopy; [|done].
  simpl. intros [= <- <-].
  destruct (copy_pixel_Some_inv _ _ _ _ Hcopy) as [H0 Hlen].
  rewrite copy_pixel_Some in Hcopy by done.
  injection Hcopy as <-.
  repeat split; [done | lia].
Qed.

(** On a context of [hd108_lld_init], a call with an index of the strip
    succeeds. *)
Lemma set_pixel_in_range ctx index p :
  ctx_ok ctx -> 0 <= index < strip_length ctx ->
  let buf := tx_buffer (transaction ctx) in
  let n := Z.to_nat (16 + 8 * index) in
  hd108_lld_set_pixel ctx index p
  = Some (HD108_LLD_OK,
          with_tx_buffer ctx
            (take n buf ++ copied_bytes (set_bit_start p) ++ drop (n + 8) buf),
          set_bit_start p).
Proof.
  intros [Hn Hlen] Hi. unfold hd108_lld_set_pixel.
  unfold HD108_LLD_MIN_COUNT, HD108_LLD_MAX_COUNT, HD108_LLD_NUM_OF_0S,
    sizeof_hd108_pixel_t in *.
  destruct (index >=? strip_length ctx) eqn:Hge.
  { rewrite Z.geb_leb in Hge. apply Z.leb_le in Hge. lia. }
  rewrite slot_offset_uint16 by (unfold is_uint16; lia).
  rewrite copy_pixel_Some by lia. reflexivity.
Qed.

Lemma set_pixel_out_of_range ctx index p :
  strip_length ctx <= index ->
  hd108_lld_set_pixel ctx index p = Some (HD108_LLD_ERROR_INDEX, ctx, p).
Proof.
  intros Hi. unfold hd108_lld_set_pixel.
  rewrite Z.geb_leb. by rewrite (proj2 (Z.leb_le _ _) Hi).
Qed.

(** A buffer with eight bytes replaced at [n]: the slot read back, and the
    bytes outside it. *)
Lemma splice_slot (buf bs : list Z) (n : nat) :
  (n + 8 <= length buf)%nat -> length bs = 8%nat ->
  take 8 (drop n (take n buf ++ bs ++ drop (n + 8) buf)) = bs.
Proof.
  intros Hlen Hbs.
  rewrite drop_app_length' by (rewrite length_take; lia).
  by apply take_app_length'.
Qed.

Lemma splice_outside (buf bs : list Z) (n k : nat) :
  (n + 8 <= length buf)%nat -> length bs = 8%nat ->
  (k < n \/ n + 8 <= k)%nat ->
  (take n buf ++ bs ++ drop (n + 8) buf) !! k = buf !! k.
Proof.
  intros Hlen Hbs [Hk | Hk].
  - rewrite lookup_app_l by (rewrite length_take; lia).
    by apply lookup_take_lt.
  - rewrite lookup_app_r by (rewrite length_take; lia).
    rewrite lookup_app_r by (rewrite length_take; lia).
    rewrite lookup_drop, length_take, Hbs. f_equal. lia.
Qed.

Lemma splice_length (buf bs : list Z) (n : nat) :
  (n + 8 <= length buf)%nat -> length bs = 8%nat ->
  length (take n buf ++ bs ++ drop (n + 8) buf) = length buf.
Proof.
  intros Hlen Hbs. rewrite !length_app, length_take, length_drop. lia.
Qed.

(** ** The encoding *)

Lemma wire_word0_value p :
  pixel_ok p ->
  wire_word0 p = 32768 + cl_red p * 1024 + cl_green p * 32 + cl_blue p.
Proof.
  intros (Hb & Hg & Hr & _). unfold wire_word0.
  rewrite !Z.shiftl_mul_pow2 by lia.
  rewrite (Z.lor_comm 32768).
  change 32768 with (1 * 2 ^ 15) at 1.
  rewrite (lor_mul_add (cl_red p * 2 ^ 10) 1 15) by lia.
  rewrite (Z.lor_comm _ (cl_green p * 2 ^ 5)).
  replace (cl_red p * 2 ^ 10 + 1 * 2 ^ 15)
    with ((cl_red p + 32) * 2 ^ 10) by lia.
  rewrite (lor_mul_add (cl_green p * 2 ^ 5) _ 10) by lia.
  rewrite Z.lor_comm.
  replace (cl_green p * 2 ^ 5 + (cl_red p + 32) * 2 ^ 10)
    with ((cl_green p + cl_red p * 32 + 1024) * 2 ^ 5) by lia.
  rewrite (lor_mul_add (cl_blue p) _ 5) by lia.
  lia.
Qed.

(** The fields of the first wire word, read back by position. *)
Lemma wire_word0_fields p :
  pixel_ok p ->
  Z.testbit (wire_word0 p) 15 = true /\
  Z.land (Z.shiftr (wire_word0 p) 10) 31 = cl_red p /\
  Z.land (Z.shiftr (wire_word0 p) 5) 31 = cl_green p /\
  Z.land (wire_word0 p) 31 = cl_blue p.
Proof.
  intros Hp. rewrite (wire_word0_value p Hp).
  destruct Hp as (Hb & Hg & Hr & _).
  change 31 with (Z.ones 5).
  rewrite !Z.land_ones, !Z.shiftr_div_pow2 by lia.
  rewrite Z.testbit_true by lia.
  change (2 ^ 15) with 32768. change (2 ^ 10) with 1024.
  change (2 ^ 5) with 32. change (2 ^ 1) with 2.
  repeat split; Z.div_mod_to_equations; lia.
Qed.

(** With the start bit set, the descriptor's first word is the first wire
    word. *)
Lemma pixel_word0_wire p :
  pixel_ok p -> pixel_word0 (set_bit_start p) = wire_word0 p.
Proof.
  intros Hp.
  rewrite (pixel_word0_value (set_bit_start p)) by exact Hp.
  rewrite wire_word0_value by done. simpl. lia.
Qed.

(** The copy emits the words of the descriptor most-significant byte
    first. *)
Lemma copied_bytes_wire_format p :
  pixel_ok p -> copied_bytes (set_bit_start p) = wire_format p.
Proof.
  intros Hp. pose proof (pixel_word0_wire p Hp) as H0.
  destruct Hp as (_ & _ & _ & Hr & Hg & Hb).
  unfold copied_bytes, wire_format, be16, src_raw, pixel_word. simpl.
  rewrite H0, !to_uint16_small by done. reflexivity.
Qed.

Lemma copied_bytes_length p : length (copied_bytes p) = 8%nat.
Proof. reflexivity. Qed.

(** The start bit of the first wire byte. *)
Lemma be16_start_bit w : Z.testbit w 15 = true ->
  Z.testbit (Z.land (Z.shiftr w 8) 255) 7 = true.
Proof.
  intros H. rewrite Z.land_spec, Z.shiftr_spec by lia.
  change (7 + 8) with 15. rewrite H. reflexivity.
Qed.

(** ** Claims about the pixel update *)

(** C1: on a context as [hd108_lld_init] builds it, a call of
    [hd108_lld_set_pixel] with an index of the strip returns
    [HD108_LLD_OK] and stores; and whenever a call returns
    [HD108_LLD_OK], on whatever context, the wire slot of the index holds
    the four words [{1, cl_red, cl_green, cl_blue}], red, green, blue, each
    most-significant byte first; the start bit (bit 15 of the first word,
    bit 7 of the first byte) is 1 whatever the unnamed bit of the
    descriptor was. *)
Theorem set_pixel_wire_slot ctx index p :
  is_uint16 index -> pixel_ok p ->
  (ctx_ok ctx -> index < strip_length ctx ->
   exists ctx',
     hd108_lld_set_pixel ctx index p
     = Some (HD108_LLD_OK, ctx', set_bit_start p) /\
     wire_slot (tx_buffer (transaction ctx')) index = wire_format p) /\
  (forall ctx' p',
     hd108_lld_set_pixel ctx index p = Some (HD108_LLD_OK, ctx', p') ->
     wire_slot (tx_buffer (transaction ctx')) index = wire_format p /\
     wire_slot (tx_buffer (transaction ctx')) index !! 0%nat
       = Some (Z.land (Z.shiftr (wire_word0 p) 8) 255) /\
     Z.testbit (Z.land (Z.shiftr (wire_word0 p) 8) 255) 7 = true /\
     Z.testbit (wire_word0 p) 15 = true /\
     Z.land (Z.shiftr (wire_word0 p) 10) 31 = cl_red p /\
     Z.land (Z.shiftr (wire_word0 p) 5) 31 = cl_green p /\
     Z.land (wire_word0 p) 31 = cl_blue p).
Proof.
  intros Hi Hp.
  assert (Hslot : forall ctx' p',
            hd108_lld_set_pixel ctx index p = Some (HD108_LLD_OK, ctx', p') ->
            wire_slot (tx_buffer (transaction ctx')) index = wire_format p).
  { intros ctx' p' Hcall.
    destruct (set_pixel_OK_inv _ _ _ _ _ Hi Hcall) as (_ & Hlen & _ & ->).
    unfold wire_slot, HD108_LLD_NUM_OF_0S, with_tx_buffer.
    cbn [tx_buffer transaction].
    rewrite splice_slot by done. by apply copied_bytes_wire_format. }
  split.
  - intros Hctx Hlt.
    pose proof (set_pixel_in_range ctx index p Hctx) as Hcall.
    cbv zeta in Hcall. unfold is_uint16 in Hi.
    specialize (Hcall (conj (proj1 Hi) Hlt)).
    eexists. split; [exact Hcall|]. exact (Hslot _ _ Hcall).
  - intros ctx' p' Hcall.
    destruct (wire_word0_fields p Hp) as (Hs & Hr & Hg & Hb).
    rewrite (Hslot ctx' p' Hcall).
    split; [done|]. split; [done|]. split; [by apply be16_start_bit|].
    by repeat split.
Qed.

Lemma set_pixel_wire_slot_witness :
  is_uint16 1 /\ pixel_ok (pixel_3_7_15 false) /\
  exists ctx',
    hd108_lld_set_pixel strip2 1 (pixel_3_7_15 false)
    = Some (HD108_LLD_OK, ctx', set_bit_start (pixel_3_7_15 false)) /\
    wire_slot (tx_buffer (transaction ctx')) 1
    = wire_format (pixel_3_7_15 false).
Proof.
  assert (Hi : is_uint16 1) by (unfold is_uint16; lia).
  assert (Hp : pixel_ok (pixel_3_7_15 false))
    by (unfold pixel_ok, is_uint16; simpl; lia).
  split; [exact Hi|]. split; [exact Hp|].
  apply (proj1 (set_pixel_wire_slot strip2 1 (pixel_3_7_15 false) Hi Hp)).
  - split; [split; by vm_compute | reflexivity].
  - simpl; lia.
Defined.

(** C3 as stated fails: for the descriptor with current levels 3, 7, 15 and
    colours 0x1234, 0x5678, 0x9ABC, a successful update of pixel 0 of a
    two-pixel strip leaves [0x8C; 0xEF; 0x12; 0x34; 0x56; 0x78; 0x9A; 0xBC]
    in the slot, not [0xEF; 0x8D; 0x34; 0x12; 0x78; 0x56; 0xBC; 0x9A]: the
    first word is 0x8CEF, and every word goes out most-significant byte
    first. *)
Lemma set_pixel_3_7_15_not_as_stated :
  exists ctx',
    hd108_lld_set_pixel strip2 0 (pixel_3_7_15 false)
    = Some (HD108_LLD_OK, ctx', set_bit_start (pixel_3_7_15 false)) /\
    wire_slot (tx_buffer (transaction ctx')) 0
    = [0x8C; 0xEF; 0x12; 0x34; 0x56; 0x78; 0x9A; 0xBC] /\
    wire_slot (tx_buffer (transaction ctx')) 0
    <> [0xEF; 0x8D; 0x34; 0x12; 0x78; 0x56; 0xBC; 0x9A] /\
    Z.lor (Z.lor (Z.lor 0x8000 (Z.shiftl 3 10)) (Z.shiftl 7 5)) 15 <> 0x8DEF.
Proof.
  eexists. split; [reflexivity|]. split; [reflexivity|].
  split; discriminate.
Qed.

(** C3, amended: for that descriptor, every successful update leaves
    [0x8C; 0xEF; 0x12; 0x34; 0x56; 0x78; 0x9A; 0xBC] in the slot of the
    index: the first word [0x8000 | (3 << 10) | (7 << 5) | 15 = 0x8CEF] and
    the three colour words, most-significant byte first. *)
Theorem set_pixel_3_7_15 ctx index s ctx' p' :
  is_uint16 index ->
  hd108_lld_set_pixel ctx index (pixel_3_7_15 s)
  = Some (HD108_LLD_OK, ctx', p') ->
  wire_slot (tx_buffer (transaction ctx')) index
  = [0x8C; 0xEF; 0x12; 0x34; 0x56; 0x78; 0x9A; 0xBC] /\
  wire_word0 (pixel_3_7_15 s) = 0x8CEF.
Proof.
  intros Hi Hcall.
  destruct (set_pixel_OK_inv _ _ _ _ _ Hi Hcall) as (_ & Hlen & _ & ->).
  split; [|reflexivity].
  unfold wire_slot, HD108_LLD_NUM_OF_0S, with_tx_buffer.
  cbn [tx_buffer transaction].
  rewrite splice_slot by done. reflexivity.
Qed.

Lemma set_pixel_3_7_15_witness :
  is_uint16 1 /\
  wire_slot (replicate 24 0 ++ [0x8C; 0xEF; 0x12; 0x34; 0x56; 0x78; 0x9A; 0xBC])
    1
  = [0x8C; 0xEF; 0x12; 0x34; 0x56; 0x78; 0x9A; 0xBC].
Proof.
  split; [unfold is_uint16; lia|].
  apply (set_pixel_3_7_15 strip2 1 true
           (with_tx_buffer strip2
              (replicate 24 0
               ++ [0x8C; 0xEF; 0x12; 0x34; 0x56; 0x78; 0x9A; 0xBC]))
           (pixel_3_7_15 true)).
  - unfold is_uint16; lia.
  - reflexivity.
Defined.

(** C4: with [index >= strip_length] the call returns
    [HD108_LLD_ERROR_INDEX] and leaves the context, with its frame buffer,
    as it was. *)
Theorem set_pixel_index_error ctx index p :
  strip_length ctx <= index ->
  exists ctx' p',
    hd108_lld_set_pixel ctx index p = Some (HD108_LLD_ERROR_INDEX, ctx', p') /\
    tx_buffer (transaction ctx') = tx_buffer (transaction ctx) /\
    ctx' = ctx.
Proof.
  intros Hi. exists ctx, p.
  by rewrite set_pixel_out_of_range.
Qed.

Lemma set_pixel_index_error_witness :
  strip_length strip2 <= 2 /\
  exists ctx' p',
    hd108_lld_set_pixel strip2 2 (pixel_3_7_15 false)
    = Some (HD108_LLD_ERROR_INDEX, ctx', p') /\
    tx_buffer (transaction ctx') = tx_buffer (transaction strip2) /\
    ctx' = strip2.
Proof.
  split; [simpl; lia|].
  apply (set_pixel_index_error strip2 2 (pixel_3_7_15 false)).
  simpl; lia.
Defined.

(** C5: a successful update of pixel [index] stores at offset
    [16 + 8 * index] and changes no byte of the frame buffer outside
    [[16 + 8 * index, 16 + 8 * index + 8)]; the buffer keeps its length. *)
Theorem set_pixel_frame ctx index p ctx' p' :
  is_uint16 index ->
  hd108_lld_set_pixel ctx index p = Some (HD108_LLD_OK, ctx', p') ->
  slot_offset index = 16 + 8 * index /\
  length (tx_buffer (transaction ctx')) = length (tx_buffer (transaction ctx)) /\
  forall k : nat,
    ~ (16 + 8 * index <= Z.of_nat k < 16 + 8 * index + 8) ->
    tx_buffer (transaction ctx') !! k = tx_buffer (transaction ctx) !! k.
Proof.
  intros Hi Hcall.
  destruct (set_pixel_OK_inv _ _ _ _ _ Hi Hcall) as (_ & Hlen & _ & ->).
  split; [by apply slot_offset_uint16|].
  unfold with_tx_buffer. cbn [tx_buffer transaction].
  split; [by apply splice_length|].
  intros k Hk. apply splice_outside; [done..|].
  unfold is_uint16 in Hi. lia.
Qed.

Lemma set_pixel_frame_witness :
  is_uint16 1 /\
  forall k : nat,
    ~ (16 + 8 * 1 <= Z.of_nat k < 16 + 8 * 1 + 8) ->
    (replicate 24 0 ++ wire_format (pixel_3_7_15 false)) !! k
    = tx_buffer (transaction strip2) !! k.
Proof.
  split; [unfold is_uint16; lia|].
  apply (set_pixel_frame strip2 1 (pixel_3_7_15 false)
           (with_tx_buffer strip2
              (replicate 24 0 ++ wire_format (pixel_3_7_15 false)))
           (set_bit_start (pixel_3_7_15 false))).
  - unfold is_uint16; lia.
  - reflexivity.
Defined.

(** C10: the call assigns to the caller's descriptor exactly when the index
    is in range, and then only [bit_start := 1]: with a valid index the
    unnamed bit of the descriptor is 1 afterwards and the six named fields
    are as before; with an index out of range the descriptor is as before.
    Its value differs from before exactly when the index is in range and
    the bit was 0. On a context of [hd108_lld_init] the call returns. *)
Theorem set_pixel_descriptor ctx index p :
  is_uint16 index ->
  (ctx_ok ctx -> is_Some (hd108_lld_set_pixel ctx index p)) /\
  forall st ctx' p',
    hd108_lld_set_pixel ctx index p = Some (st, ctx', p') ->
    p' = (if index <? strip_length ctx then set_bit_start p else p) /\
    (index < strip_length ctx -> rsv p' = true) /\
    (strip_length ctx <= index -> p' = p) /\
    (cl_blue p' = cl_blue p /\ cl_green p' = cl_green p /\
     cl_red p' = cl_red p /\
     red p' = red p /\ green p' = green p /\ blue p' = blue p) /\
    (p' <> p <-> index < strip_length ctx /\ rsv p = false).
Proof.
  intros Hi. split.
  - intros Hctx. destruct (Z.lt_ge_cases index (strip_length ctx)) as [Hlt|Hge].
    + rewrite set_pixel_in_range by (unfold is_uint16 in Hi; done || lia).
      by eexists.
    + rewrite set_pixel_out_of_range by done. by eexists.
  - intros st ctx' p' Hcall.
    destruct (Z.lt_ge_cases index (strip_length ctx)) as [Hlt|Hge].
    + rewrite (proj2 (Z.ltb_lt _ _) Hlt).
      assert (Hp' : p' = set_bit_start p).
      { unfold hd108_lld_set_pixel in Hcall.
        rewrite Z.geb_leb, (proj2 (Z.leb_gt _ _) Hlt) in Hcall.
        destruct (hd108_lld_copy_pixel _ _ _); simpl in Hcall; [|done].
        by injection Hcall as _ _ <-. }
      subst p'.
      split; [done|]. split; [done|]. split; [lia|]. split; [done|].
      split.
      * intros Hne. split; [done|].
        destruct p as [? ? ? [] ? ? ?]; [by destruct Hne | done].
      * intros [_ Hr] Heq. destruct p as [? ? ? r ? ? ?]. simpl in Hr.
        subst r. discriminate Heq.
    + rewrite (proj2 (Z.ltb_ge _ _) Hge).
      rewrite set_pixel_out_of_range in Hcall by done.
      injection Hcall as _ _ <-.
      split; [done|]. split; [lia|]. split; [done|]. split; [done|].
      split; [done | lia].
Qed.

Lemma set_pixel_descriptor_witness :
  is_uint16 1 /\
  forall st ctx' p',
    hd108_lld_set_pixel strip2 1 (pixel_3_7_15 false) = Some (st, ctx', p') ->
    p' = set_bit_start (pixel_3_7_15 false).
Proof.
  split; [unfold is_uint16; lia|].
  intros st ctx' p' Hcall.
  assert (Hi : is_uint16 1) by (unfold is_uint16; lia).
  exact (proj1 (proj2 (set_pixel_descriptor strip2 1 (pixel_3_7_15 false) Hi)
                  st ctx' p' Hcall)).
Defined.

(** ** Initialization *)

Ltac unfold_init :=
  unfold hd108_lld_init, hd108_lld_init_body, hd108_lld_start_timer_for_ctx,
    rollback, call_fn, run, when, mbind, M_bind, bind, return_, ret, call;
  cbv beta.

(** Follow [hd108_lld_init] through the answers of the platform; [leaf]
    closes the goals of the early returns, the goal of the successful run is
    left. *)
Ltac walk_platform P leaf :=
  let c := fresh "c" in let m := fresh "m" in let g := fresh "g" in
  let r1 := fresh "r" in let r2 := fresh "r" in let h := fresh "h" in
  let r3 := fresh "r" in let r4 := fresh "r" in
  destruct P as [c m g r1 r2 h r3 r4];
  cbn [calloc_ok heap_caps_malloc_ok heap_garbage spi_bus_initialize_res
       spi_bus_add_device_res spi_bus_add_device_handle esp_timer_create_res
       esp_timer_start_periodic_res];
  destruct c; cbn [negb]; cbv beta iota; [|solve [leaf]];
  destruct m; cbn [negb]; cbv beta iota; [|solve [leaf]];
  destruct r1; cbv beta iota; try solve [leaf];
  destruct r2; cbv beta iota; try solve [leaf];
  destruct r3; cbn [negb is_ESP_OK]; cbv beta iota; try solve [leaf];
  destruct r4; cbn [negb is_ESP_OK]; cbv beta iota; try solve [leaf].

(** The four checks, in the order of the source; once they pass the first
    thing the function does is allocate the context. *)
Lemma init_validation P cfg :
  let r := hd108_lld_init P cfg in
  if (HD108_LLD_MIN_COUNT >? count cfg) || (HD108_LLD_MAX_COUNT <? count cfg)
  then r = mk_init_result HD108_LLD_ERROR_LENGTH None []
  else if HD108_LLD_MAX_SPI_SPEED <? spi_speed_hz cfg
  then r = mk_init_result HD108_LLD_ERROR_INVALID None []
  else if NULL =? update_function cfg
  then r = mk_init_result HD108_LLD_ERROR_INVALID None []
  else if rate_of cfg >? spi_speed_hz cfg
  then r = mk_init_result HD108_LLD_ERROR_DATA_RATE None []
  else init_status r <> HD108_LLD_ERROR_DATA_RATE /\
       init_status r <> HD108_LLD_ERROR_LENGTH /\
       exists rest, init_calls r = Ev_calloc :: rest.
Proof.
  unfold_init.
  destruct (_ || _); cbv beta iota; [reflexivity|].
  destruct (_ <? _); cbv beta iota; [reflexivity|].
  destruct (_ =? _); cbv beta iota; [reflexivity|].
  destruct (_ >? _); cbv beta iota; [reflexivity|].
  walk_platform P ltac:(split; [done | split; [done | by eexists]]).
Qed.

(** A run that hands out a context passed the four checks, made exactly the
    six calls of the successful path, and hands out this context. *)
Lemma init_success_inv P cfg ctx :
  init_ctx_out (hd108_lld_init P cfg) = Some ctx ->
  (HD108_LLD_MIN_COUNT >? count cfg) || (HD108_LLD_MAX_COUNT <? count cfg)
    = false /\
  (rate_of cfg >? spi_speed_hz cfg) = false /\
  init_status (hd108_lld_init P cfg) = HD108_LLD_OK /\
  init_calls (hd108_lld_init P cfg)
  = [Ev_calloc; Ev_heap_caps_malloc (buffer_len_of cfg);
     Ev_spi_bus_initialize (spi_host cfg) (pin_mosi cfg) (pin_clk cfg)
       (buffer_len_of cfg);
     Ev_spi_bus_add_device (spi_host cfg) (spi_speed_hz cfg);
     Ev_esp_timer_create;
     Ev_esp_timer_start_periodic
       (hd108_get_update_period_time (frequency_hz cfg))] /\
  ctx = mk_ctx (spi_bus_add_device_handle P)
          (mk_transaction
             (memset (map (heap_garbage P)
                        (seq 0 (Z.to_nat (buffer_len_of cfg))))
                0 (buffer_len_of cfg))
             (to_uint32 (8 * buffer_len_of cfg)))
          (update_function cfg) (count cfg).
Proof.
  unfold_init.
  destruct (_ || _); cbv beta iota; [done|].
  destruct (_ <? _); cbv beta iota; [done|].
  destruct (_ =? _); cbv beta iota; [done|].
  destruct (_ >? _); cbv beta iota; [done|].
  walk_platform P ltac:(done).
  intros [= <-]. done.
Qed.

(** The status is [HD108_LLD_OK] only if a context is handed out. *)
Lemma init_OK_ctx P cfg :
  init_status (hd108_lld_init P cfg) = HD108_LLD_OK ->
  is_Some (init_ctx_out (hd108_lld_init P cfg)).
Proof.
  unfold_init.
  destruct (_ || _); cbv beta iota; [done|].
  destruct (_ <? _); cbv beta iota; [done|].
  destruct (_ =? _); cbv beta iota; [done|].
  destruct (_ >? _); cbv beta iota; [done|].
  walk_platform P ltac:(done).
Qed.

Lemma count_check cfg :
  (HD108_LLD_MIN_COUNT >? count cfg) || (HD108_LLD_MAX_COUNT <? count cfg)
    = false
  <-> 1 <= count cfg <= 1024.
Proof.
  unfold HD108_LLD_MIN_COUNT, HD108_LLD_MAX_COUNT.
  rewrite orb_false_iff, Z.gtb_ltb, !Z.ltb_ge. lia.
Qed.

Lemma buffer_len_valid cfg :
  1 <= count cfg <= 1024 -> buffer_len_of cfg = 16 + 8 * count cfg.
Proof.
  intros H. unfold buffer_len_of, HD108_LLD_NUM_OF_0S, sizeof_hd108_pixel_t.
  rewrite (to_uint32_small (count cfg * 8)) by lia.
  rewrite to_uint32_small by lia.
  rewrite to_uint16_small by (unfold is_uint16; lia). lia.
Qed.

Lemma hz_range f : 1 <= hz f <= 120.
Proof. destruct f; simpl; lia. Qed.

Lemma rate_valid cfg :
  1 <= count cfg <= 1024 ->
  rate_of cfg = (16 + 8 * count cfg) * 8 * hz (frequency_hz cfg) * 2.
Proof.
  intros H. unfold rate_of. rewrite buffer_len_valid by done.
  pose proof (hz_range (frequency_hz cfg)) as Hf.
  apply to_uint32_small. nia.
Qed.

Lemma memset_fresh (g : nat -> Z) c n :
  memset (map g (seq 0 (Z.to_nat n))) c n = replicate (Z.to_nat n) c.
Proof.
  unfold memset. rewrite drop_ge, app_nil_r; [done|].
  by rewrite length_map, length_seq.
Qed.

(** The periodic timer is started at most once, with the period of the
    configured frequency, and it is started in every run that ends with
    [HD108_LLD_OK]. *)
Lemma init_timer_calls P cfg :
  let r := hd108_lld_init P cfg in
  let period := hd108_get_update_period_time (frequency_hz cfg) in
  (timer_periods (init_calls r) = [] \/
   timer_periods (init_calls r) = [period]) /\
  (init_status r = HD108_LLD_OK -> timer_periods (init_calls r) = [period]).
Proof.
  unfold_init.
  destruct (_ || _); cbv beta iota; [split; [by left | done]|].
  destruct (_ <? _); cbv beta iota; [split; [by left | done]|].
  destruct (_ =? _); cbv beta iota; [split; [by left | done]|].
  destruct (_ >? _); cbv beta iota; [split; [by left | done]|].
  walk_platform P ltac:(split; [(by left) || (by right) | done]).
Qed.

(** ** Claims about initialization *)

(** C2: for a strip length in [1, 1024], a bus speed of at most 40 MHz and
    a callback that is not null, [hd108_lld_init] returns something other
    than [HD108_LLD_ERROR_DATA_RATE] exactly when
    [(16 + 8 * L) * 8 * F * 2 <= spi_speed_hz], for each of the twelve
    frequencies and whatever the platform answers. *)
Theorem init_data_rate_check P cfg :
  1 <= count cfg <= 1024 ->
  spi_speed_hz cfg <= 40000000 ->
  update_function cfg <> NULL ->
  init_status (hd108_lld_init P cfg) <> HD108_LLD_ERROR_DATA_RATE
  <-> (16 + 8 * count cfg) * 8 * hz (frequency_hz cfg) * 2 <= spi_speed_hz cfg.
Proof.
  intros Hcount Hspeed Hcb.
  pose proof (init_validation P cfg) as H. cbv zeta in H.
  rewrite (proj2 (count_check cfg) Hcount) in H.
  unfold HD108_LLD_MAX_SPI_SPEED in H.
  rewrite (proj2 (Z.ltb_ge _ _) Hspeed) in H.
  rewrite (proj2 (Z.eqb_neq _ _) (not_eq_sym Hcb)) in H.
  rewrite <- (rate_valid cfg Hcount).
  rewrite Z.gtb_ltb in H.
  destruct (spi_speed_hz cfg <? rate_of cfg) eqn:Hrate.
  - apply Z.ltb_lt in Hrate. rewrite H. simpl. split; [done | lia].
  - apply Z.ltb_ge in Hrate. destruct H as (H & _). done.
Qed.

Lemma init_data_rate_check_witness :
  1 <= 2 <= 1024 /\ 1000000 <= 40000000 /\ 0x40080000 <> NULL /\
  (init_status (hd108_lld_init willing two_pixels_10hz)
     <> HD108_LLD_ERROR_DATA_RATE
   <-> (16 + 8 * 2) * 8 * 10 * 2 <= 1000000).
Proof.
  split; [lia|]. split; [lia|]. split; [discriminate|].
  apply (init_data_rate_check willing two_pixels_10hz).
  - simpl; lia.
  - simpl; lia.
  - discriminate.
Defined.

(** C7: a strip length of 0 or above 1024 makes [hd108_lld_init] return
    [HD108_LLD_ERROR_LENGTH] without a single call to the platform (so
    without an allocation) and without a context for the caller, whatever
    the other fields of the configuration are. *)
Theorem init_length_error P cfg :
  count cfg < 1 \/ 1024 < count cfg ->
  hd108_lld_init P cfg = mk_init_result HD108_LLD_ERROR_LENGTH None [].
Proof.
  intros Hcount.
  pose proof (init_validation P cfg) as H. cbv zeta in H.
  destruct (_ || _) eqn:Hc in H; [done|].
  apply count_check in Hc. lia.
Qed.

Lemma init_length_error_witness :
  (1025 < 1 \/ 1024 < 1025) /\
  hd108_lld_init willing (mk_configuration 1 50000000 23 18 1025
                            HD108_LLD_UPDATE_120HZ NULL)
  = mk_init_result HD108_LLD_ERROR_LENGTH None [].
Proof.
  split; [lia|].
  apply (init_length_error willing
           (mk_configuration 1 50000000 23 18 1025 HD108_LLD_UPDATE_120HZ NULL)).
  simpl; lia.
Defined.

(** C8: with a strip length in [1, 1024], a bus speed of at most 40 MHz
    and a null callback, [hd108_lld_init] returns
    [HD108_LLD_ERROR_INVALID] without a single call to the platform (so
    before any allocation) and without a context for the caller. *)
Theorem init_null_callback P cfg :
  1 <= count cfg <= 1024 ->
  spi_speed_hz cfg <= 40000000 ->
  update_function cfg = NULL ->
  hd108_lld_init P cfg = mk_init_result HD108_LLD_ERROR_INVALID None [].
Proof.
  intros Hcount Hspeed Hcb.
  pose proof (init_validation P cfg) as H. cbv zeta in H.
  rewrite (proj2 (count_check cfg) Hcount) in H.
  unfold HD108_LLD_MAX_SPI_SPEED in H.
  rewrite (proj2 (Z.ltb_ge _ _) Hspeed) in H.
  by rewrite Hcb, Z.eqb_refl in H.
Qed.

Lemma init_null_callback_witness :
  1 <= 2 <= 1024 /\ 1000000 <= 40000000 /\
  hd108_lld_init willing
    (mk_configuration 1 1000000 23 18 2 HD108_LLD_UPDATE_10HZ NULL)
  = mk_init_result HD108_LLD_ERROR_INVALID None [].
Proof.
  split; [lia|]. split; [lia|].
  apply (init_null_callback willing
           (mk_configuration 1 1000000 23 18 2 HD108_LLD_UPDATE_10HZ NULL)).
  - simpl; lia.
  - simpl; lia.
  - reflexivity.
Defined.

(** C9 as stated fails: the division is not exact for every frequency of
    the enumeration. At 24 Hz the computed period is 41666 microseconds and
    [24 * 41666 = 999984]. *)
Lemma period_24hz_truncated :
  hd108_get_update_period_time HD108_LLD_UPDATE_24HZ = 41666 /\
  1000000 mod hz HD108_LLD_UPDATE_24HZ = 16 /\
  hz HD108_LLD_UPDATE_24HZ
    * hd108_get_update_period_time HD108_LLD_UPDATE_24HZ <> 1000000 /\
  ~ (forall f, 1000000 mod hz f = 0).
Proof.
  split; [reflexivity|]. split; [reflexivity|]. split; [discriminate|].
  intros H. specialize (H HD108_LLD_UPDATE_24HZ). discriminate H.
Qed.

(** C9, amended: for each of the twelve frequencies the period computed by
    [hd108_get_update_period_time] is [1000000 / F] under truncating
    division, and this is the period with which [hd108_lld_init] starts the
    periodic timer (in every run that starts it, so in every successful
    run). The division is exact for 1, 2, 5, 10, 20, 25, 50 and 100 Hz and
    truncates for 24, 30, 60 and 120 Hz. *)
Theorem init_timer_period :
  (forall f,
     hd108_get_update_period_time f = 1000000 / hz f /\
     hd108_get_update_period_time f = Z.quot 1000000 (hz f) /\
     (1000000 mod hz f = 0 <->
      f <> HD108_LLD_UPDATE_24HZ /\ f <> HD108_LLD_UPDATE_30HZ /\
      f <> HD108_LLD_UPDATE_60HZ /\ f <> HD108_LLD_UPDATE_120HZ) /\
     1000000 - hz f < hz f * hd108_get_update_period_time f <= 1000000) /\
  (forall P cfg,
     let r := hd108_lld_init P cfg in
     (timer_periods (init_calls r) = [] \/
      timer_periods (init_calls r) = [1000000 / hz (frequency_hz cfg)]) /\
     (init_status r = HD108_LLD_OK ->
      timer_periods (init_calls r) = [1000000 / hz (frequency_hz cfg)])).
Proof.
  assert (Hperiod : forall f, hd108_get_update_period_time f = 1000000 / hz f)
    by (intros f; destruct f; reflexivity).
  split.
  - intros f. split; [apply Hperiod|]. split; [by destruct f|]. split.
    + destruct f; vm_compute; split; try done;
        intros (H1 & H2 & H3 & H4); done.
    + destruct f; vm_compute; split; done.
  - intros P cfg. cbv zeta. rewrite <- Hperiod. apply init_timer_calls.
Qed.

(** ** The zero padding *)

Lemma take_16_splice (buf bs : list Z) (n : nat) :
  (16 <= n)%nat -> (n + 8 <= length buf)%nat ->
  take 16 (take n buf ++ bs ++ drop (n + 8) buf) = take 16 buf.
Proof.
  intros Hn Hlen.
  rewrite take_app_le by (rewrite length_take; lia).
  rewrite take_take. f_equal. lia.
Qed.

(** One update keeps the context well-formed and the padding as it is. *)
Lemma set_pixel_padding ctx index p :
  ctx_ok ctx -> is_uint16 index ->
  exists st ctx' p',
    hd108_lld_set_pixel ctx index p = Some (st, ctx', p') /\
    ctx_ok ctx' /\
    take 16 (tx_buffer (transaction ctx')) = take 16 (tx_buffer (transaction ctx)).
Proof.
  intros Hctx Hi.
  destruct (Z.lt_ge_cases index (strip_length ctx)) as [Hlt | Hge].
  - rewrite set_pixel_in_range by (unfold is_uint16 in Hi; done || lia).
    do 3 eexists. split; [reflexivity|].
    destruct Hctx as [Hn Hlen].
    unfold HD108_LLD_NUM_OF_0S, sizeof_hd108_pixel_t in Hlen.
    unfold is_uint16 in Hi.
    unfold ctx_ok, with_tx_buffer. cbn [tx_buffer transaction strip_length].
    split; [split; [done|]|].
    + rewrite splice_length by (done || lia). done.
    + apply take_16_splice; lia.
  - rewrite set_pixel_out_of_range by done. by do 3 eexists.
Qed.

Lemma set_pixels_padding calls : forall ctx,
  ctx_ok ctx -> Forall (fun c => is_uint16 c.1) calls ->
  exists ctx',
    set_pixels ctx calls = Some ctx' /\
    ctx_ok ctx' /\
    take 16 (tx_buffer (transaction ctx')) = take 16 (tx_buffer (transaction ctx)).
Proof.
  induction calls as [|[index p] calls IH]; intros ctx Hctx Hcalls.
  - by exists ctx.
  - apply Forall_cons in Hcalls as [Hi Hcalls]. simpl in Hi.
    destruct (set_pixel_padding ctx index p Hctx Hi)
      as (st & ctx1 & p1 & Hcall & Hctx1 & Hpad1).
    destruct (IH ctx1 Hctx1 Hcalls) as (ctx2 & Hrest & Hctx2 & Hpad2).
    exists ctx2. simpl. rewrite Hcall. simpl.
    split; [done|]. split; [done|]. by rewrite Hpad2.
Qed.

(** The context of a successful initialization: well-formed, with a frame
    of zeros. *)
Lemma init_ctx_blank P cfg ctx :
  init_ctx_out (hd108_lld_init P cfg) = Some ctx ->
  ctx_ok ctx /\
  tx_buffer (transaction ctx)
  = replicate (Z.to_nat (16 + 8 * strip_length ctx)) 0.
Proof.
  intros H. apply init_success_inv in H as (Hcount & _ & _ & _ & ->).
  apply count_check in Hcount.
  rewrite memset_fresh, buffer_len_valid by done.
  unfold ctx_ok. cbn [tx_buffer transaction strip_length].
  unfold HD108_LLD_MIN_COUNT, HD108_LLD_MAX_COUNT, HD108_LLD_NUM_OF_0S,
    sizeof_hd108_pixel_t.
  rewrite length_replicate. repeat split; lia.
Qed.

(** C6: after a successful [hd108_lld_init] the first 16 bytes of the frame
    buffer are zero; every sequence of [hd108_lld_set_pixel] calls on the
    context runs and leaves them zero; and the offset computed for an
    index is never below 16. *)
Theorem padding_stays_zero P cfg ctx evs calls :
  hd108_lld_init P cfg = mk_init_result HD108_LLD_OK (Some ctx) evs ->
  Forall (fun c => is_uint16 c.1) calls ->
  take 16 (tx_buffer (transaction ctx)) = replicate 16 0 /\
  (exists ctx',
     set_pixels ctx calls = Some ctx' /\
     take 16 (tx_buffer (transaction ctx')) = replicate 16 0) /\
  (forall index, is_uint16 index -> 16 <= slot_offset index).
Proof.
  intros Hinit Hcalls.
  assert (Hout : init_ctx_out (hd108_lld_init P cfg) = Some ctx)
    by (by rewrite Hinit).
  destruct (init_ctx_blank P cfg ctx Hout) as [Hctx Hbuf].
  assert (Hpad : take 16 (tx_buffer (transaction ctx)) = replicate 16 0).
  { rewrite Hbuf, take_replicate. f_equal.
    destruct Hctx as [Hn _]. unfold HD108_LLD_MIN_COUNT in Hn. lia. }
  split; [done|]. split.
  - destruct (set_pixels_padding calls ctx Hctx Hcalls)
      as (ctx' & Hrun & _ & Hsame).
    exists ctx'. split; [done|]. by rewrite Hsame.
  - intros index Hi. rewrite slot_offset_uint16 by done.
    unfold is_uint16 in Hi. lia.
Qed.

Lemma padding_stays_zero_witness :
  Forall (fun c : Z * hd108_pixel_t => is_uint16 c.1)
    [(1, pixel_3_7_15 false); (7, pixel_3_7_15 true); (0, pixel_3_7_15 true)] /\
  exists ctx',
    set_pixels (mk_ctx 5 (mk_transaction (replicate 32 0) 256) 0x40080000 2)
      [(1, pixel_3_7_15 false); (7, pixel_3_7_15 true); (0, pixel_3_7_15 true)]
    = Some ctx' /\
    take 16 (tx_buffer (transaction ctx')) = replicate 16 0.
Proof.
  assert (Hcalls : Forall (fun c : Z * hd108_pixel_t => is_uint16 c.1)
            [(1, pixel_3_7_15 false); (7, pixel_3_7_15 true);
             (0, pixel_3_7_15 true)])
    by (repeat constructor; unfold is_uint16; simpl; lia).
  split; [exact Hcalls|].
  refine (proj1 (proj2 (padding_stays_zero willing two_pixels_10hz
            (mk_ctx 5 (mk_transaction (replicate 32 0) 256) 0x40080000 2)
            [Ev_calloc; Ev_heap_caps_malloc 32;
             Ev_spi_bus_initialize 1 23 18 32;
             Ev_spi_bus_add_device 1 1000000;
             Ev_esp_timer_create; Ev_esp_timer_start_periodic 100000]
            _ _ Hcalls))).
  reflexivity.
Defined.

(** * Further properties of the driver *)

(** ** The pixel update as a function *)

Lemma splice_lookup (buf bs : list Z) (n k : nat) :
  (n + 8 <= length buf)%nat -> length bs = 8%nat ->
  splice buf n bs !! k
  = if decide (n <= k < n + 8)%nat then bs !! (k - n)%nat else buf !! k.
Proof.
  intros Hlen Hbs. unfold splice. case_decide as Hk.
  - rewrite lookup_app_r by (rewrite length_take; lia).
    rewrite length_take, lookup_app_l by lia. f_equal. lia.
  - apply splice_outside; [done..|lia].
Qed.

Lemma splice_len (buf bs : list Z) (n : nat) :
  (n + 8 <= length buf)%nat -> length bs = 8%nat ->
  length (splice buf n bs) = length buf.
Proof. apply splice_length. Qed.

(** [hd108_lld_set_pixel] by cases: the index check, then the eight stores,
    which stay inside the buffer or stop the model. *)
Lemma set_pixel_eq ctx index p :
  is_uint16 index ->
  hd108_lld_set_pixel ctx index p
  = if index >=? strip_length ctx then Some (HD108_LLD_ERROR_INDEX, ctx, p)
    else if bool_decide (16 + 8 * index + 8
                         <= Z.of_nat (length (tx_buffer (transaction ctx))))
    then Some (HD108_LLD_OK,
               with_tx_buffer ctx
                 (splice (tx_buffer (transaction ctx))
                    (Z.to_nat (16 + 8 * index))
                    (copied_bytes (set_bit_start p))),
               set_bit_start p)
    else None.
Proof.
  intros Hi. unfold hd108_lld_set_pixel.
  destruct (index >=? strip_length ctx); [done|].
  rewrite slot_offset_uint16 by done.
  unfold is_uint16 in Hi.
  case_bool_decide as Hlen.
  - by rewrite copy_pixel_Some by lia.
  - destruct (hd108_lld_copy_pixel _ _ _) eqn:Hcopy; [|done].
    apply copy_pixel_Some_inv in Hcopy. lia.
Qed.

Lemma with_tx_buffer_strip_length ctx buf :
  strip_length (with_tx_buffer ctx buf) = strip_length ctx.
Proof. reflexivity. Qed.

Lemma with_tx_buffer_tx_buffer ctx buf :
  tx_buffer (transaction (with_tx_buffer ctx buf)) = buf.
Proof. reflexivity. Qed.

Lemma with_tx_buffer_twice ctx buf buf' :
  with_tx_buffer (with_tx_buffer ctx buf) buf' = with_tx_buffer ctx buf'.
Proof. reflexivity. Qed.

Ltac simpl_ctx :=
  rewrite ?with_tx_buffer_twice, ?with_tx_buffer_strip_length,
    ?with_tx_buffer_tx_buffer.

Lemma set_pixels_cons ctx index p rest :
  is_uint16 index ->
  set_pixels ctx ((index, p) :: rest)
  = if index >=? strip_length ctx then set_pixels ctx rest
    else if bool_decide (16 + 8 * index + 8
                         <= Z.of_nat (length (tx_buffer (transaction ctx))))
    then set_pixels
           (with_tx_buffer ctx
              (splice (tx_buffer (transaction ctx))
                 (Z.to_nat (16 + 8 * index))
                 (copied_bytes (set_bit_start p))))
           rest
    else None.
Proof.
  intros Hi. cbn [set_pixels]. rewrite set_pixel_eq by done.
  destruct (index >=? strip_length ctx); [done|].
  by case_bool_decide.
Qed.

Lemma splice_splice (buf bs cs : list Z) (n : nat) :
  (n + 8 <= length buf)%nat -> length bs = 8%nat -> length cs = 8%nat ->
  splice (splice buf n bs) n cs = splice buf n cs.
Proof.
  intros Hlen Hbs Hcs. apply list_eq. intros k.
  rewrite !splice_lookup by (rewrite ?splice_len; done).
  by case_decide.
Qed.

Lemma splice_comm (buf bs cs : list Z) (n m : nat) :
  (n + 8 <= length buf)%nat -> (m + 8 <= length buf)%nat ->
  length bs = 8%nat -> length cs = 8%nat ->
  (n + 8 <= m \/ m + 8 <= n)%nat ->
  splice (splice buf n bs) m cs = splice (splice buf m cs) n bs.
Proof.
  intros Hn Hm Hbs Hcs Hnm. apply list_eq. intros k.
  rewrite !splice_lookup by (rewrite ?splice_len; done).
  repeat case_decide; (done || lia).
Qed.

(** The stored bytes do not depend on the unnamed bit of the descriptor. *)
Lemma copied_bytes_set_bit_start p :
  copied_bytes (set_bit_start (set_bit_start p))
  = copied_bytes (set_bit_start p).
Proof. reflexivity. Qed.

(** ** Extra properties of [hd108_lld_set_pixel] *)

(** X1 (memory safety and status): on a context as [hd108_lld_init] builds
    it, a call with any [uint16_t] index performs no store outside the
    buffer; it returns [HD108_LLD_OK] exactly for [index < strip_length] and
    [HD108_LLD_ERROR_INDEX] otherwise; the context stays well-formed and
    its handle, callback, strip length and transaction length are as
    before. *)
Theorem set_pixel_safe ctx index p :
  ctx_ok ctx -> is_uint16 index ->
  exists st ctx' p',
    hd108_lld_set_pixel ctx index p = Some (st, ctx', p') /\
    (st = HD108_LLD_OK <-> index < strip_length ctx) /\
    (st = HD108_LLD_ERROR_INDEX <-> strip_length ctx <= index) /\
    ctx_ok ctx' /\
    device_handle ctx' = device_handle ctx /\
    callback ctx' = callback ctx /\
    strip_length ctx' = strip_length ctx /\
    trans_length (transaction ctx') = trans_length (transaction ctx).
Proof.
  intros Hctx Hi. rewrite set_pixel_eq by done.
  pose proof Hctx as [Hn Hlen].
  unfold HD108_LLD_NUM_OF_0S, sizeof_hd108_pixel_t in Hlen.
  unfold is_uint16 in Hi.
  destruct (index >=? strip_length ctx) eqn:Hge; rewrite Z.geb_leb in Hge.
  - apply Z.leb_le in Hge. do 3 eexists. split; [done|].
    repeat split; (done || lia).
  - apply Z.leb_gt in Hge.
    rewrite bool_decide_eq_true_2 by lia.
    do 3 eexists. split; [done|].
    split; [done|]. split; [split; [done | lia]|].
    split; [|done].
    unfold ctx_ok, with_tx_buffer. cbn [tx_buffer transaction strip_length].
    split; [done|].
    rewrite splice_len by (done || lia). done.
Qed.

Lemma set_pixel_safe_witness :
  ctx_ok strip2 /\ is_uint16 40000 /\
  exists st ctx' p',
    hd108_lld_set_pixel strip2 40000 (pixel_3_7_15 false)
    = Some (st, ctx', p') /\
    (st = HD108_LLD_ERROR_INDEX <-> strip_length strip2 <= 40000).
Proof.
  assert (Hctx : ctx_ok strip2) by (split; [split; by vm_compute | reflexivity]).
  assert (Hi : is_uint16 40000) by (unfold is_uint16; lia).
  split; [exact Hctx|]. split; [exact Hi|].
  destruct (set_pixel_safe strip2 40000 (pixel_3_7_15 false) Hctx Hi)
    as (st & ctx' & p' & Hcall & _ & Herr & _).
  exists st, ctx', p'. split; [exact Hcall | exact Herr].
Defined.

(** X2 (last write wins): two calls for the same index leave the context
    that the second call alone leaves, whatever the first descriptor was;
    in particular repeating a call changes nothing, and neither does
    passing the descriptor back with its start bit already set. *)
Theorem set_pixel_overwrite ctx index p q :
  is_uint16 index ->
  set_pixels ctx [(index, p); (index, q)] = set_pixels ctx [(index, q)] /\
  set_pixels ctx [(index, q); (index, q)] = set_pixels ctx [(index, q)] /\
  set_pixels ctx [(index, set_bit_start q)] = set_pixels ctx [(index, q)].
Proof.
  intros Hi.
  assert (Hover : forall a b,
    set_pixels ctx [(index, a); (index, b)] = set_pixels ctx [(index, b)]).
  { intros a b. rewrite !set_pixels_cons by done. simpl_ctx.
    destruct (index >=? strip_length ctx) eqn:Hge; [done|].
    case_bool_decide as Hlen; [|done].
    unfold is_uint16 in Hi.
    rewrite splice_len by (done || lia).
    rewrite bool_decide_eq_true_2 by done.
    rewrite splice_splice by (done || lia). done. }
  split; [apply Hover|]. split; [apply Hover|].
  rewrite !(set_pixels_cons ctx) by done.
  by rewrite copied_bytes_set_bit_start.
Qed.

Lemma set_pixel_overwrite_witness :
  is_uint16 1 /\
  set_pixels strip2 [(1, pixel_3_7_15 false); (1, mk_pixel 0 0 0 false 1 2 3)]
  = set_pixels strip2 [(1, mk_pixel 0 0 0 false 1 2 3)].
Proof.
  assert (Hi : is_uint16 1) by (unfold is_uint16; lia).
  split; [exact Hi|].
  exact (proj1 (set_pixel_overwrite strip2 1 (pixel_3_7_15 false)
                  (mk_pixel 0 0 0 false 1 2 3) Hi)).
Defined.

(** X3 (updates of different pixels commute): two calls for different
    indexes leave the same context in either order. *)
Theorem set_pixel_commute ctx i p j q :
  is_uint16 i -> is_uint16 j -> i <> j ->
  set_pixels ctx [(i, p); (j, q)] = set_pixels ctx [(j, q); (i, p)].
Proof.
  intros Hi Hj Hij.
  rewrite !set_pixels_cons by done. simpl_ctx.
  unfold is_uint16 in Hi, Hj.
  destruct (i >=? strip_length ctx) eqn:Hgi;
    destruct (j >=? strip_length ctx) eqn:Hgj; try done.
  set (len := Z.of_nat (length (tx_buffer (transaction ctx)))).
  destruct (decide (16 + 8 * i + 8 <= len)) as [Hli | Hli];
    destruct (decide (16 + 8 * j + 8 <= len)) as [Hlj | Hlj]; subst len;
    repeat first
      [ rewrite (bool_decide_eq_true_2 _ Hli)
      | rewrite (bool_decide_eq_true_2 _ Hlj)
      | rewrite (bool_decide_eq_false_2 _ Hli)
      | rewrite (bool_decide_eq_false_2 _ Hlj)
      | rewrite splice_len by (done || lia) ];
    try done.
  rewrite (splice_comm _ _ _ (Z.to_nat (16 + 8 * i))
             (Z.to_nat (16 + 8 * j))) by (done || lia).
  done.
Qed.

Lemma set_pixel_commute_witness :
  is_uint16 0 /\ is_uint16 1 /\ 0 <> 1 /\
  set_pixels strip2 [(0, pixel_3_7_15 false); (1, mk_pixel 1 2 3 true 4 5 6)]
  = set_pixels strip2 [(1, mk_pixel 1 2 3 true 4 5 6); (0, pixel_3_7_15 false)].
Proof.
  assert (H0 : is_uint16 0) by (unfold is_uint16; lia).
  assert (H1 : is_uint16 1) by (unfold is_uint16; lia).
  split; [exact H0|]. split; [exact H1|]. split; [discriminate|].
  apply (set_pixel_commute strip2 0 (pixel_3_7_15 false) 1
           (mk_pixel 1 2 3 true 4 5 6) H0 H1).
  discriminate.
Defined.

(** ** Reading the frame back *)

Lemma be16_value w :
  is_uint16 w -> Z.land (Z.shiftr w 8) 255 * 256 + Z.land w 255 = w.
Proof.
  unfold is_uint16. intros Hw.
  rewrite !land_255, Z.shiftr_div_pow2 by lia.
  change (2 ^ 8) with 256. change (2 ^ 16) with 65536 in Hw.
  Z.div_mod_to_equations. lia.
Qed.

Lemma wire_word0_uint16 p : pixel_ok p -> is_uint16 (wire_word0 p).
Proof.
  intros Hp. rewrite wire_word0_value by done.
  destruct Hp as (Hb & Hg & Hr & _). unfold is_uint16. lia.
Qed.

(** What a successful call leaves in the slot and in the descriptor. *)
Lemma set_pixel_OK_slot ctx index p ctx' p' :
  is_uint16 index -> pixel_ok p ->
  hd108_lld_set_pixel ctx index p = Some (HD108_LLD_OK, ctx', p') ->
  wire_slot (tx_buffer (transaction ctx')) index = wire_format p /\
  p' = set_bit_start p.
Proof.
  intros Hi Hp Hcall.
  destruct (set_pixel_OK_inv _ _ _ _ _ Hi Hcall) as (_ & Hlen & -> & ->).
  split; [|done].
  unfold wire_slot, HD108_LLD_NUM_OF_0S. simpl_ctx.
  rewrite splice_slot by done. by apply copied_bytes_wire_format.
Qed.

Lemma decode_wire_format p :
  pixel_ok p -> decode_slot (wire_format p) = Some (set_bit_start p).
Proof.
  intros Hp. pose proof (wire_word0_fields p Hp) as (Hs & Hr & Hg & Hb).
  pose proof (wire_word0_uint16 p Hp) as Hw.
  destruct Hp as (_ & _ & _ & Hcr & Hcg & Hcb).
  unfold wire_format, be16, decode_slot. cbn [app]. cbv zeta.
  rewrite !be16_value by done.
  by rewrite Hs, Hr, Hg, Hb.
Qed.

(** The slot of a call that returned [HD108_LLD_OK], read back. *)
Lemma set_pixel_decode_of_OK ctx index p ctx' p' :
  is_uint16 index -> pixel_ok p ->
  hd108_lld_set_pixel ctx index p = Some (HD108_LLD_OK, ctx', p') ->
  decode_slot (wire_slot (tx_buffer (transaction ctx')) index) = Some p' /\
  forall q cq q',
    pixel_ok q ->
    hd108_lld_set_pixel ctx index q = Some (HD108_LLD_OK, cq, q') ->
    wire_slot (tx_buffer (transaction cq)) index
    = wire_slot (tx_buffer (transaction ctx')) index ->
    set_bit_start q = set_bit_start p.
Proof.
  intros Hi Hp Hcall.
  destruct (set_pixel_OK_slot _ _ _ _ _ Hi Hp Hcall) as [Hslot ->].
  split.
  - rewrite Hslot. by apply decode_wire_format.
  - intros q cq q' Hq Hcallq Heq.
    destruct (set_pixel_OK_slot _ _ _ _ _ Hi Hq Hcallq) as [Hslotq _].
    rewrite Hslot, Hslotq in Heq.
    apply (f_equal decode_slot) in Heq.
    rewrite !decode_wire_format in Heq by done.
    congruence.
Qed.

(** X4 (round trip): on a context as [hd108_lld_init] builds it a call
    with an index of the strip returns [HD108_LLD_OK], and read as four
    big-endian words the slot it wrote gives back the descriptor as the
    call leaves it: the three current levels, the three colours, and the
    start bit set. The same holds of every call that returns
    [HD108_LLD_OK], on whatever context; so the slots written for two
    descriptors are equal only if their six fields are. *)
Theorem set_pixel_decode ctx index p :
  is_uint16 index -> pixel_ok p ->
  (ctx_ok ctx -> index < strip_length ctx ->
   exists ctx',
     hd108_lld_set_pixel ctx index p
     = Some (HD108_LLD_OK, ctx', set_bit_start p) /\
     decode_slot (wire_slot (tx_buffer (transaction ctx')) index)
     = Some (set_bit_start p)) /\
  (forall ctx' p',
     hd108_lld_set_pixel ctx index p = Some (HD108_LLD_OK, ctx', p') ->
     decode_slot (wire_slot (tx_buffer (transaction ctx')) index) = Some p' /\
     forall q cq q',
       pixel_ok q ->
       hd108_lld_set_pixel ctx index q = Some (HD108_LLD_OK, cq, q') ->
       wire_slot (tx_buffer (transaction cq)) index
       = wire_slot (tx_buffer (transaction ctx')) index ->
       set_bit_start q = set_bit_start p).
Proof.
  intros Hi Hp. split.
  - intros Hctx Hlt.
    pose proof (set_pixel_in_range ctx index p Hctx) as Hcall.
    cbv zeta in Hcall. unfold is_uint16 in Hi.
    specialize (Hcall (conj (proj1 Hi) Hlt)).
    eexists. split; [exact Hcall|].
    exact (proj1 (set_pixel_decode_of_OK _ _ _ _ _ Hi Hp Hcall)).
  - intros ctx' p' Hcall.
    exact (set_pixel_decode_of_OK _ _ _ _ _ Hi Hp Hcall).
Qed.

Lemma set_pixel_decode_witness :
  is_uint16 1 /\ pixel_ok (pixel_3_7_15 false) /\
  exists ctx',
    hd108_lld_set_pixel strip2 1 (pixel_3_7_15 false)
    = Some (HD108_LLD_OK, ctx', pixel_3_7_15 true) /\
    decode_slot (wire_slot (tx_buffer (transaction ctx')) 1)
    = Some (pixel_3_7_15 true).
Proof.
  assert (Hi : is_uint16 1) by (unfold is_uint16; lia).
  assert (Hp : pixel_ok (pixel_3_7_15 false))
    by (unfold pixel_ok, is_uint16; simpl; lia).
  split; [exact Hi|]. split; [exact Hp|].
  apply (proj1 (set_pixel_decode strip2 1 (pixel_3_7_15 false) Hi Hp)).
  - split; [split; by vm_compute | reflexivity].
  - simpl; lia.
Defined.

(** ** The frame after a sequence of updates *)

Lemma wire_slot_lookup (buf : list Z) (i : Z) (k : nat) :
  0 <= i ->
  wire_slot buf i !! k
  = if decide (k < 8)%nat then buf !! (Z.to_nat (16 + 8 * i) + k)%nat
    else None.
Proof.
  intros Hi. unfold wire_slot, HD108_LLD_NUM_OF_0S.
  rewrite lookup_take. case_decide; [|done]. by rewrite lookup_drop.
Qed.

Lemma wire_slot_splice (buf bs : list Z) (i j : Z) :
  0 <= i -> 0 <= j -> length bs = 8%nat ->
  16 + 8 * i + 8 <= Z.of_nat (length buf) ->
  16 + 8 * j + 8 <= Z.of_nat (length buf) ->
  wire_slot (splice buf (Z.to_nat (16 + 8 * j)) bs) i
  = if decide (i = j) then bs else wire_slot buf i.
Proof.
  intros Hi Hj Hbs Hli Hlj. case_decide as Hij.
  - subst j. unfold wire_slot, HD108_LLD_NUM_OF_0S, splice.
    apply splice_slot; (done || lia).
  - apply list_eq. intros k. rewrite !wire_slot_lookup by done.
    case_decide; [|done].
    rewrite splice_lookup by (done || lia).
    case_decide; [lia | done].
Qed.

Lemma Forall_splice (Q : Z -> Prop) buf n bs :
  Forall Q buf -> Forall Q bs -> Forall Q (splice buf n bs).
Proof.
  intros Hbuf Hbs. unfold splice.
  repeat apply Forall_app_2; [by apply Forall_take | done | by apply Forall_drop].
Qed.

Lemma copied_bytes_uint8 p : Forall is_uint8 (copied_bytes p).
Proof. unfold copied_bytes. repeat constructor; apply src_raw_byte. Qed.

(** The frame that a list of calls builds, slot by slot, with the
    invariants of the context. *)
Lemma set_pixels_frame calls : forall ctx,
  ctx_ok ctx -> Forall call_ok calls ->
  exists ctx',
    set_pixels ctx calls = Some ctx' /\
    ctx_ok ctx' /\
    ctx' = with_tx_buffer ctx (tx_buffer (transaction ctx')) /\
    (Forall is_uint8 (tx_buffer (transaction ctx)) ->
     Forall is_uint8 (tx_buffer (transaction ctx'))) /\
    forall i, 0 <= i < strip_length ctx ->
      wire_slot (tx_buffer (transaction ctx')) i
      = match last_update calls i with
        | Some p => wire_format p
        | None => wire_slot (tx_buffer (transaction ctx)) i
        end.
Proof.
  induction calls as [|[j p] calls IH]; intros ctx Hctx Hcalls.
  - exists ctx. split; [done|]. split; [done|].
    split; [by destruct ctx as [? [] ? ?]|]. done.
  - apply Forall_cons in Hcalls as [[Hj Hp] Hcalls]. cbn [fst snd] in Hj, Hp.
    rewrite set_pixels_cons by done.
    pose proof Hctx as [Hn Hlen].
    unfold HD108_LLD_NUM_OF_0S, sizeof_hd108_pixel_t in Hlen.
    pose proof Hj as Hj'. unfold is_uint16 in Hj'.
    destruct (j >=? strip_length ctx) eqn:Hge; rewrite Z.geb_leb in Hge.
    + apply Z.leb_le in Hge.
      destruct (IH ctx Hctx Hcalls) as (ctx' & Hrun & Hok & Hsame & Hb & Hs).
      exists ctx'. do 4 (split; [done|]).
      intros i Hi. rewrite (Hs i Hi). cbn [last_update].
      destruct (last_update calls i); [done|].
      destruct (j =? i) eqn:E; [apply Z.eqb_eq in E; lia | done].
    + apply Z.leb_gt in Hge.
      rewrite bool_decide_eq_true_2 by lia.
      set (ctx1 := with_tx_buffer ctx _).
      assert (Hctx1 : ctx_ok ctx1).
      { split; [done|]. subst ctx1. simpl_ctx.
        rewrite splice_len by (done || lia).
        unfold HD108_LLD_NUM_OF_0S, sizeof_hd108_pixel_t. lia. }
      destruct (IH ctx1 Hctx1 Hcalls) as (ctx' & Hrun & Hok & Hsame & Hb & Hs).
      exists ctx'. split; [done|]. split; [done|].
      split; [by rewrite Hsame at 1|]. split.
      { intros Hbuf. apply Hb. subst ctx1. simpl_ctx.
        apply Forall_splice; [done | apply copied_bytes_uint8]. }
      intros i Hi. rewrite (Hs i) by (by subst ctx1).
      cbn [last_update]. destruct (last_update calls i); [done|].
      subst ctx1. simpl_ctx.
      rewrite wire_slot_splice by (done || lia).
      case_decide as Hij.
      * subst j. rewrite Z.eqb_refl. by apply copied_bytes_wire_format.
      * by rewrite (proj2 (Z.eqb_neq j i)).
Qed.

(** X5 (the frame is the last update of each pixel): on a well-formed
    context every list of calls the interface admits runs without a store
    outside the buffer, and afterwards the slot of each pixel of the strip
    holds the wire format of the last descriptor written for it, or what it
    held before if the list has no call for it; calls with an index out of
    range leave no trace. Only the buffer of the context changes. *)
Theorem set_pixels_last_update ctx calls :
  ctx_ok ctx -> Forall call_ok calls ->
  exists ctx',
    set_pixels ctx calls = Some ctx' /\
    ctx_ok ctx' /\
    ctx' = with_tx_buffer ctx (tx_buffer (transaction ctx')) /\
    forall i, 0 <= i < strip_length ctx ->
      wire_slot (tx_buffer (transaction ctx')) i
      = match last_update calls i with
        | Some p => wire_format p
        | None => wire_slot (tx_buffer (transaction ctx)) i
        end.
Proof.
  intros Hctx Hcalls.
  destruct (set_pixels_frame calls ctx Hctx Hcalls)
    as (ctx' & Hrun & Hok & Hsame & _ & Hslots).
  by exists ctx'.
Qed.

Lemma set_pixels_last_update_witness :
  ctx_ok strip2 /\
  Forall call_ok [(1, pixel_3_7_15 false); (5, pixel_3_7_15 false);
                  (1, mk_pixel 1 2 3 false 4 5 6)] /\
  exists ctx',
    set_pixels strip2 [(1, pixel_3_7_15 false); (5, pixel_3_7_15 false);
                       (1, mk_pixel 1 2 3 false 4 5 6)] = Some ctx' /\
    wire_slot (tx_buffer (transaction ctx')) 1
    = wire_format (mk_pixel 1 2 3 false 4 5 6) /\
    wire_slot (tx_buffer (transaction ctx')) 0 = replicate 8 0.
Proof.
  assert (Hctx : ctx_ok strip2) by (split; [split; by vm_compute | reflexivity]).
  assert (Hcalls : Forall call_ok
            [(1, pixel_3_7_15 false); (5, pixel_3_7_15 false);
             (1, mk_pixel 1 2 3 false 4 5 6)])
    by (repeat constructor; unfold is_uint16; simpl; lia).
  split; [exact Hctx|]. split; [exact Hcalls|].
  destruct (set_pixels_last_update strip2 _ Hctx Hcalls)
    as (ctx' & Hrun & _ & _ & Hslots).
  exists ctx'. split; [exact Hrun|]. split.
  - apply (Hslots 1). simpl; lia.
  - apply (Hslots 0). simpl; lia.
Defined.

(** ** From initialization to the frame *)

Lemma wire_slot_blank (n : nat) (i : Z) :
  0 <= i -> 16 + 8 * i + 8 <= Z.of_nat n ->
  wire_slot (replicate n 0) i = replicate 8 0.
Proof.
  intros Hi Hn. unfold wire_slot, HD108_LLD_NUM_OF_0S.
  rewrite drop_replicate, take_replicate. f_equal. lia.
Qed.

(** X6 (the frame after initialization and updates): the context of a
    successful [hd108_lld_init] carries the strip length and the callback
    of the configuration; after any list of admitted calls its buffer
    still has [16 + 8 * count] bytes, each in [0, 255], and the slot of
    each pixel holds the wire format of the last descriptor written for
    it, or eight zero bytes if none was. *)
Theorem frame_after_init P cfg ctx evs calls :
  hd108_lld_init P cfg = mk_init_result HD108_LLD_OK (Some ctx) evs ->
  Forall call_ok calls ->
  exists ctx',
    set_pixels ctx calls = Some ctx' /\
    strip_length ctx' = count cfg /\
    callback ctx' = update_function cfg /\
    device_handle ctx' = spi_bus_add_device_handle P /\
    trans_length (transaction ctx') = 8 * (16 + 8 * count cfg) /\
    Z.of_nat (length (tx_buffer (transaction ctx'))) = 16 + 8 * count cfg /\
    Forall is_uint8 (tx_buffer (transaction ctx')) /\
    forall i, 0 <= i < count cfg ->
      wire_slot (tx_buffer (transaction ctx')) i
      = match last_update calls i with
        | Some p => wire_format p
        | None => replicate 8 0
        end.
Proof.
  intros Hinit Hcalls.
  assert (Hout : init_ctx_out (hd108_lld_init P cfg) = Some ctx)
    by (by rewrite Hinit).
  destruct (init_ctx_blank P cfg ctx Hout) as [Hctx Hbuf].
  apply init_success_inv in Hout as (Hcount & _ & _ & _ & Hshape).
  apply count_check in Hcount.
  assert (Hn : strip_length ctx = count cfg) by (by rewrite Hshape).
  assert (Hcb : callback ctx = update_function cfg) by (by rewrite Hshape).
  assert (Hh : device_handle ctx = spi_bus_add_device_handle P)
    by (by rewrite Hshape).
  assert (Hbits : trans_length (transaction ctx) = 8 * (16 + 8 * count cfg)).
  { rewrite Hshape. cbn [trans_length transaction].
    rewrite buffer_len_valid by done. apply to_uint32_small. lia. }
  destruct (set_pixels_frame calls ctx Hctx Hcalls)
    as (ctx' & Hrun & Hok & Hsame & Hbytes & Hslots).
  exists ctx'. split; [done|].
  split; [by rewrite Hsame|]. split; [by rewrite Hsame|].
  split; [by rewrite Hsame|]. split; [by rewrite Hsame|].
  split.
  { destruct Hok as [_ Hlen]. rewrite Hlen, Hsame.
    unfold HD108_LLD_NUM_OF_0S, sizeof_hd108_pixel_t.
    by rewrite with_tx_buffer_strip_length, Hn. }
  split.
  { apply Hbytes. rewrite Hbuf. apply Forall_replicate.
    unfold is_uint8. lia. }
  intros i Hi. rewrite Hslots by lia.
  destruct (last_update calls i); [done|].
  rewrite Hbuf. apply wire_slot_blank; lia.
Qed.

Lemma frame_after_init_witness :
  Forall call_ok [(0, pixel_3_7_15 false)] /\
  exists ctx',
    set_pixels (mk_ctx 5 (mk_transaction (replicate 32 0) 256) 0x40080000 2)
      [(0, pixel_3_7_15 false)] = Some ctx' /\
    wire_slot (tx_buffer (transaction ctx')) 0
      = wire_format (pixel_3_7_15 false) /\
    wire_slot (tx_buffer (transaction ctx')) 1 = replicate 8 0.
Proof.
  assert (Hcalls : Forall call_ok [(0, pixel_3_7_15 false)])
    by (repeat constructor; unfold is_uint16; simpl; lia).
  split; [exact Hcalls|].
  destruct (frame_after_init willing two_pixels_10hz
              (mk_ctx 5 (mk_transaction (replicate 32 0) 256) 0x40080000 2)
              [Ev_calloc; Ev_heap_caps_malloc 32;
               Ev_spi_bus_initialize 1 23 18 32;
               Ev_spi_bus_add_device 1 1000000;
               Ev_esp_timer_create; Ev_esp_timer_start_periodic 100000]
              [(0, pixel_3_7_15 false)] eq_refl Hcalls)
    as (ctx' & Hrun & _ & _ & _ & _ & _ & _ & Hslots).
  exists ctx'. split; [exact Hrun|]. split.
  - apply (Hslots 0). simpl; lia.
  - apply (Hslots 1). simpl; lia.
Defined.

(** ** The periodic tick *)

Lemma set_pixels_app ctx calls calls' :
  set_pixels ctx (calls ++ calls')
  = ctx' ← set_pixels ctx calls; set_pixels ctx' calls'.
Proof.
  revert ctx. induction calls as [|[i p] calls IH]; intros ctx; [done|].
  cbn [app set_pixels].
  destruct (hd108_lld_set_pixel ctx i p) as [[[st ctx1] p1]|]; [|done].
  apply IH.
Qed.

Lemma frames_sent_app log log' :
  frames_sent (log ++ log') = frames_sent log ++ frames_sent log'.
Proof. apply omap_app. Qed.

Lemma call_ok_uint16 calls :
  Forall call_ok calls -> Forall (fun c => is_uint16 c.1) calls.
Proof. intros H. eapply Forall_impl; [exact H|]. by intros c [? _]. Qed.

Lemma set_pixels_tick_inv ctx calls :
  tick_inv ctx -> Forall call_ok calls ->
  exists ctx',
    set_pixels ctx calls = Some ctx' /\ tick_inv ctx' /\
    ctx' = with_tx_buffer ctx (tx_buffer (transaction ctx')).
Proof.
  intros (Hctx & Hbytes & Hpad & Hbits) Hcalls.
  destruct (set_pixels_frame calls ctx Hctx Hcalls)
    as (ctx' & Hrun & Hok & Hsame & Hb & _).
  destruct (set_pixels_padding calls ctx Hctx (call_ok_uint16 _ Hcalls))
    as (ctx2 & Hrun2 & _ & Hpad2).
  assert (ctx2 = ctx') as -> by congruence.
  exists ctx'. split; [done|]. split; [|done].
  split; [done|]. split; [by apply Hb|]. split; [by rewrite Hpad2|].
  destruct Hok as [_ Hlen']. destruct Hctx as [_ Hlen].
  rewrite Hsame at 1. cbn [trans_length transaction with_tx_buffer].
  rewrite Hbits, Hlen, Hlen', Hsame. by rewrite with_tx_buffer_strip_length.
Qed.

Lemma init_tick_inv P cfg ctx :
  init_ctx_out (hd108_lld_init P cfg) = Some ctx -> tick_inv ctx.
Proof.
  intros Hout. destruct (init_ctx_blank P cfg ctx Hout) as [Hctx Hbuf].
  apply init_success_inv in Hout as (Hcount & _ & _ & _ & Hshape).
  apply count_check in Hcount.
  assert (Hn : strip_length ctx = count cfg) by (by rewrite Hshape).
  split; [done|]. split; [|split].
  - rewrite Hbuf. apply Forall_replicate. unfold is_uint8. lia.
  - rewrite Hbuf, take_replicate. f_equal. lia.
  - rewrite Hbuf, length_replicate, Hn. rewrite Hshape.
    cbn [trans_length transaction].
    rewrite buffer_len_valid by done. rewrite to_uint32_small by lia. lia.
Qed.

(** X7 (order of a tick): a tick queues the frame, waits for the transfer
    and only then calls the update function, so the frame of tick [k] is
    the buffer as the updates of the ticks before [k] left it: the updates
    made during a tick are in the next frame and not in the one of their
    own tick. After the ticks the context is the one all their updates
    leave. *)
Theorem tick_frames ticks : forall ctx,
  ctx_ok ctx -> Forall (Forall call_ok) ticks ->
  exists ctx' log,
    timer_ticks ctx ticks = Some (ctx', log) /\
    set_pixels ctx (concat ticks) = Some ctx' /\
    length (frames_sent log) = length ticks /\
    forall k, (k < length ticks)%nat ->
      exists ctx_k,
        set_pixels ctx (concat (take k ticks)) = Some ctx_k /\
        frames_sent log !! k = Some (tx_buffer (transaction ctx_k)) /\
        log !! (3 * k)%nat
        = Some (Ev_spi_device_queue_trans (device_handle ctx_k)
                  (tx_buffer (transaction ctx_k))
                  (trans_length (transaction ctx_k))) /\
        log !! (3 * k + 1)%nat
        = Some (Ev_spi_device_get_trans_result (device_handle ctx_k)) /\
        log !! (3 * k + 2)%nat = Some (Ev_callback (callback ctx_k)).
Proof.
  induction ticks as [|updates ticks IH]; intros ctx Hctx Hticks.
  - exists ctx, []. repeat split; try done. intros k Hk. simpl in Hk. lia.
  - apply Forall_cons in Hticks as [Hupd Hticks].
    destruct (set_pixels_frame updates ctx Hctx Hupd)
      as (ctx1 & Hrun1 & Hctx1 & _).
    destruct (IH ctx1 Hctx1 Hticks) as (ctx' & log & Hrun & Hall & Hlen & Hk).
    exists ctx'. eexists.
    cbn [timer_ticks]. unfold hd108_lld_periodic_timer_callback.
    rewrite Hrun1. cbn [mbind option_bind fst]. rewrite Hrun.
    cbn [mbind option_bind fst snd].
    split; [reflexivity|].
    split; [cbn [concat]; by rewrite set_pixels_app, Hrun1|].
    split; [rewrite frames_sent_app, length_app, Hlen; reflexivity|].
    intros [|k] Hlt.
    + exists ctx. by repeat split.
    + destruct (Hk k) as (ctx_k & Hrun_k & Hframe & Hq & Hw & Hc);
        [simpl in Hlt; lia|].
      exists ctx_k. cbn [take concat].
      rewrite set_pixels_app, Hrun1. split; [done|].
      split; [exact Hframe|].
      replace (3 * S k)%nat with (S (S (S (3 * k)))) by lia.
      by repeat split.
Qed.

Lemma tick_frames_witness :
  ctx_ok strip2 /\
  Forall (Forall call_ok) [[(0, pixel_3_7_15 false)]; []] /\
  exists ctx' log,
    timer_ticks strip2 [[(0, pixel_3_7_15 false)]; []] = Some (ctx', log) /\
    frames_sent log
    = [replicate 32 0;
       replicate 16 0 ++ wire_format (pixel_3_7_15 false) ++ replicate 8 0].
Proof.
  assert (Hctx : ctx_ok strip2) by (split; [split; by vm_compute | reflexivity]).
  assert (Hticks : Forall (Forall call_ok) [[(0, pixel_3_7_15 false)]; []])
    by (repeat constructor; unfold is_uint16; simpl; lia).
  split; [exact Hctx|]. split; [exact Hticks|].
  destruct (tick_frames _ strip2 Hctx Hticks) as (ctx' & log & Hrun & _).
  exists ctx', log. split; [exact Hrun|].
  vm_compute in Hrun. injection Hrun as _ <-. reflexivity.
Defined.

(** X8 (every frame on the bus is well-formed): whatever admitted calls
    the update function makes in whatever ticks, every transfer queued
    after a successful [hd108_lld_init] goes to the device that
    [spi_bus_add_device] returned, carries [16 + 8 * count] bytes, each in
    [0, 255], announces eight times as many bits, and starts with 16 zero
    bytes. *)
Theorem frames_well_formed P cfg ctx evs ticks :
  hd108_lld_init P cfg = mk_init_result HD108_LLD_OK (Some ctx) evs ->
  Forall (Forall call_ok) ticks ->
  exists ctx' log,
    timer_ticks ctx ticks = Some (ctx', log) /\
    device_handle ctx = spi_bus_add_device_handle P /\
    strip_length ctx = count cfg /\
    Forall (frame_ok ctx) log.
Proof.
  intros Hinit Hticks.
  assert (Hout : init_ctx_out (hd108_lld_init P cfg) = Some ctx)
    by (by rewrite Hinit).
  pose proof (init_tick_inv P cfg ctx Hout) as Hinv.
  apply init_success_inv in Hout as (_ & _ & _ & _ & Hshape).
  assert (Hgen : forall c, tick_inv c ->
            device_handle c = device_handle ctx ->
            strip_length c = strip_length ctx ->
            exists c' log, timer_ticks c ticks = Some (c', log) /\
                           Forall (frame_ok ctx) log).
  { clear Hinv Hshape Hinit. induction ticks as [|updates ticks IH];
      intros c Hc Hh Hn.
    - by exists c, [].
    - apply Forall_cons in Hticks as [Hupd Hticks].
      destruct (set_pixels_tick_inv c updates Hc Hupd)
        as (c1 & Hrun1 & Hc1 & Hsame).
      destruct (IH Hticks c1 Hc1) as (c' & log & Hrun & Hlog).
      { by rewrite Hsame. }
      { by rewrite Hsame. }
      exists c'. eexists.
      cbn [timer_ticks]. unfold hd108_lld_periodic_timer_callback.
      rewrite Hrun1. cbn [mbind option_bind fst]. rewrite Hrun.
      cbn [mbind option_bind fst snd]. split; [reflexivity|].
      destruct Hc as ([_ Hlen] & Hbytes & Hpad & Hbits).
      unfold HD108_LLD_NUM_OF_0S, sizeof_hd108_pixel_t in Hlen.
      repeat apply Forall_cons_2; try done.
      cbn [frame_ok]. rewrite <- Hn. by repeat split. }
  destruct (Hgen ctx Hinv eq_refl eq_refl) as (ctx' & log & Hrun & Hlog).
  exists ctx', log. split; [done|].
  split; [by rewrite Hshape|]. split; [by rewrite Hshape | done].
Qed.

Lemma frames_well_formed_witness :
  Forall (Forall call_ok) [[(0, pixel_3_7_15 false)]; []] /\
  exists ctx' log,
    timer_ticks (mk_ctx 5 (mk_transaction (replicate 32 0) 256) 0x40080000 2)
      [[(0, pixel_3_7_15 false)]; []] = Some (ctx', log) /\
    Forall (frame_ok
              (mk_ctx 5 (mk_transaction (replicate 32 0) 256) 0x40080000 2))
      log.
Proof.
  assert (Hticks : Forall (Forall call_ok) [[(0, pixel_3_7_15 false)]; []])
    by (repeat constructor; unfold is_uint16; simpl; lia).
  split; [exact Hticks|].
  destruct (frames_well_formed willing two_pixels_10hz
              (mk_ctx 5 (mk_transaction (replicate 32 0) 256) 0x40080000 2)
              [Ev_calloc; Ev_heap_caps_malloc 32;
               Ev_spi_bus_initialize 1 23 18 32;
               Ev_spi_bus_add_device 1 1000000;
               Ev_esp_timer_create; Ev_esp_timer_start_periodic 100000]
              [[(0, pixel_3_7_15 false)]; []] eq_refl Hticks)
    as (ctx' & log & Hrun & _ & _ & Hlog).
  exists ctx', log. split; [exact Hrun | exact Hlog].
Defined.

(** ** Initialization, case by case *)

(** The four checks of [hd108_lld_init] pass exactly for the valid
    configurations. *)
Lemma checks_pass_iff cfg :
  config_valid cfg <->
  (HD108_LLD_MIN_COUNT >? count cfg) || (HD108_LLD_MAX_COUNT <? count cfg)
    = false /\
  (HD108_LLD_MAX_SPI_SPEED <? spi_speed_hz cfg) = false /\
  (NULL =? update_function cfg) = false /\
  (rate_of cfg >? spi_speed_hz cfg) = false.
Proof.
  unfold config_valid, HD108_LLD_MAX_SPI_SPEED.
  rewrite count_check, Z.ltb_ge, Z.eqb_neq, Z.gtb_ltb, Z.ltb_ge.
  split.
  - intros (Hc & Hs & Hf & Hr). rewrite rate_valid by done.
    split; [done|]. split; [done|]. split; [by apply not_eq_sym | done].
  - intros (Hc & Hs & Hf & Hr). rewrite rate_valid in Hr by done.
    split; [done|]. split; [done|]. split; [by apply not_eq_sym | done].
Qed.

Lemma config_valid_dec cfg : Decision (config_valid cfg).
Proof. unfold config_valid. apply _. Qed.

(** Unfold [hd108_lld_init] on a valid configuration, past its checks. *)
Ltac init_past_checks Hvalid :=
  let H1 := fresh in let H2 := fresh in let H3 := fresh in let H4 := fresh in
  destruct (proj1 (checks_pass_iff _) Hvalid) as (H1 & H2 & H3 & H4);
  unfold_init; rewrite H1, H2, H3, H4; cbv beta iota.

(** X9 (when initialization succeeds): [hd108_lld_init] returns
    [HD108_LLD_OK] exactly when the configuration passes the four checks
    and every call to the platform succeeds; it then makes the six calls
    of the successful path, with a buffer of [16 + 8 * count] bytes as
    allocation and as maximal transfer size, and hands out a context with a
    frame of zeros of that size, [8 * (16 + 8 * count)] bits per
    transfer, the device handle, the callback and the strip length. *)
Theorem init_succeeds_iff P cfg :
  (init_status (hd108_lld_init P cfg) = HD108_LLD_OK
   <-> config_valid cfg /\ platform_succeeds P) /\
  (config_valid cfg -> platform_succeeds P ->
   hd108_lld_init P cfg
   = mk_init_result HD108_LLD_OK
       (Some (mk_ctx (spi_bus_add_device_handle P)
                (mk_transaction
                   (replicate (Z.to_nat (16 + 8 * count cfg)) 0)
                   (8 * (16 + 8 * count cfg)))
                (update_function cfg) (count cfg)))
       [Ev_calloc; Ev_heap_caps_malloc (16 + 8 * count cfg);
        Ev_spi_bus_initialize (spi_host cfg) (pin_mosi cfg) (pin_clk cfg)
          (16 + 8 * count cfg);
        Ev_spi_bus_add_device (spi_host cfg) (spi_speed_hz cfg);
        Ev_esp_timer_create;
        Ev_esp_timer_start_periodic (1000000 / hz (frequency_hz cfg))]).
Proof.
  split.
  - destruct (config_valid_dec cfg) as [Hvalid | Hinvalid].
    + init_past_checks Hvalid.
      walk_platform P ltac:(split; [done | by intros (_ & ? & ? & ? & ? & ? & ?)]).
    + split; [|by intros [? _]].
      intros Hok. destruct (init_OK_ctx P cfg Hok) as [ctx Hctx].
      apply init_success_inv in Hctx as (H1 & H4 & _).
      pose proof (init_validation P cfg) as Hv. cbv zeta in Hv.
      rewrite H1 in Hv.
      destruct (_ <? _) eqn:H2 in Hv; [by rewrite Hv in Hok|].
      destruct (_ =? _) eqn:H3 in Hv; [by rewrite Hv in Hok|].
      destruct Hinvalid. by apply checks_pass_iff.
  - intros Hvalid (Hc & Hm & Hb & Hd & Ht & Hs).
    pose proof Hvalid as (Hcount & _).
    assert (Hperiod : hd108_get_update_period_time (frequency_hz cfg)
                      = 1000000 / hz (frequency_hz cfg))
      by (by destruct (frequency_hz cfg)).
    init_past_checks Hvalid.
    rewrite Hc, Hm, Hb, Hd, Ht, Hs. cbn [negb is_ESP_OK]. cbv beta iota.
    rewrite memset_fresh, Hperiod, !buffer_len_valid by done.
    rewrite to_uint32_small by lia. reflexivity.
Qed.

(** X10 (a rejected configuration costs nothing): a configuration that
    fails a check makes [hd108_lld_init] return without a call to the
    platform and without a context. The status is that of the first check
    that fails, in the order length, bus speed, callback, data rate: so a
    bus speed above 40 MHz gives [HD108_LLD_ERROR_INVALID] even when the
    data rate would be too high as well. *)
Theorem init_rejects P cfg :
  ~ config_valid cfg ->
  hd108_lld_init P cfg
  = mk_init_result
      (if bool_decide (count cfg < 1 \/ 1024 < count cfg)
       then HD108_LLD_ERROR_LENGTH
       else if bool_decide (40000000 < spi_speed_hz cfg)
       then HD108_LLD_ERROR_INVALID
       else if bool_decide (update_function cfg = NULL)
       then HD108_LLD_ERROR_INVALID
       else HD108_LLD_ERROR_DATA_RATE)
      None [].
Proof.
  intros Hinvalid.
  pose proof (init_validation P cfg) as Hv. cbv zeta in Hv.
  destruct (_ || _) eqn:H1 in Hv.
  { rewrite Hv, bool_decide_eq_true_2; [done|].
    destruct (decide (1 <= count cfg <= 1024)) as [Hc|Hc]; [|lia].
    apply count_check in Hc. congruence. }
  apply count_check in H1.
  rewrite bool_decide_eq_false_2 by lia.
  unfold HD108_LLD_MAX_SPI_SPEED in Hv.
  destruct (_ <? _) eqn:H2 in Hv.
  { apply Z.ltb_lt in H2. by rewrite Hv, bool_decide_eq_true_2. }
  apply Z.ltb_ge in H2. rewrite bool_decide_eq_false_2 by lia.
  destruct (_ =? _) eqn:H3 in Hv.
  { apply Z.eqb_eq in H3. by rewrite Hv, bool_decide_eq_true_2. }
  apply Z.eqb_neq in H3. rewrite bool_decide_eq_false_2 by done.
  destruct (_ >? _) eqn:H4 in Hv; [done|].
  destruct Hinvalid. rewrite Z.gtb_ltb in H4. apply Z.ltb_ge in H4.
  rewrite rate_valid in H4 by done.
  split; [done|]. split; [done|]. split; done.
Qed.

Lemma init_rejects_witness :
  ~ config_valid (mk_configuration 1 50000000 23 18 1024
                    HD108_LLD_UPDATE_120HZ 0x40080000) /\
  hd108_lld_init willing (mk_configuration 1 50000000 23 18 1024
                            HD108_LLD_UPDATE_120HZ 0x40080000)
  = mk_init_result HD108_LLD_ERROR_INVALID None [].
Proof.
  assert (Hinvalid : ~ config_valid
            (mk_configuration 1 50000000 23 18 1024
               HD108_LLD_UPDATE_120HZ 0x40080000)).
  { intros (_ & Hs & _). simpl in Hs. lia. }
  split; [exact Hinvalid|].
  exact (init_rejects willing _ Hinvalid).
Defined.

(** A configuration that fails a check: no call, no context, no success. *)
Lemma init_rejected P cfg :
  ~ config_valid cfg ->
  init_calls (hd108_lld_init P cfg) = [] /\
  init_ctx_out (hd108_lld_init P cfg) = None /\
  init_status (hd108_lld_init P cfg) <> HD108_LLD_OK.
Proof.
  intros Hinvalid.
  pose proof (init_validation P cfg) as Hv. cbv zeta in Hv.
  destruct (_ || _) eqn:H1 in Hv; [by rewrite Hv|].
  destruct (_ <? _) eqn:H2 in Hv; [by rewrite Hv|].
  destruct (_ =? _) eqn:H3 in Hv; [by rewrite Hv|].
  destruct (_ >? _) eqn:H4 in Hv; [by rewrite Hv|].
  destruct Hinvalid. by apply checks_pass_iff.
Qed.

(** X11 (roll-back): a run of [hd108_lld_init] that does not end with
    [HD108_LLD_OK] hands out no context and releases every block the
    platform handed out, the buffer before the context, each once; a run
    that ends with [HD108_LLD_OK] releases nothing and keeps exactly the
    context and the buffer. *)
Theorem init_rollback P cfg :
  let r := hd108_lld_init P cfg in
  (init_status r = HD108_LLD_OK ->
   frees (init_calls r) = [] /\
   obtained P (init_calls r) = [the_ctx; the_buffer]) /\
  (init_status r <> HD108_LLD_OK ->
   init_ctx_out r = None /\
   frees (init_calls r) = reverse (obtained P (init_calls r))).
Proof.
  cbv zeta. destruct (config_valid_dec cfg) as [Hvalid | Hinvalid].
  - init_past_checks Hvalid.
    walk_platform P ltac:(split; [done | by intros _]).
    split; [done | by intros []].
  - destruct (init_rejected P cfg Hinvalid) as (Hcalls & Hctx & Hst).
    rewrite Hcalls. by split.
Qed.

(** X12 (which failure gives which status): on a valid configuration a
    failed allocation or an out-of-memory answer of any of the four calls
    gives [HD108_LLD_ERROR_NO_MEMORY]; [HD108_LLD_ERROR_NO_DMA] means
    [spi_bus_initialize] found no DMA channel and
    [HD108_LLD_ERROR_NO_CS] means [spi_bus_add_device] found no slot;
    [HD108_LLD_ERROR_SPI_IN_USE] is the answer to an invalid-state error
    of [spi_bus_initialize] and also of either timer call. The statuses of
    the checks and of the pixel update never come out of this part. *)
Theorem init_platform_errors P cfg :
  config_valid cfg ->
  let st := init_status (hd108_lld_init P cfg) in
  let bus := spi_bus_initialize_res P in
  let dev := spi_bus_add_device_res P in
  let t_create := esp_timer_create_res P in
  let t_start := esp_timer_start_periodic_res P in
  let allocated := calloc_ok P = true /\ heap_caps_malloc_ok P = true in
  (st = HD108_LLD_ERROR_NO_MEMORY <->
   calloc_ok P = false \/ heap_caps_malloc_ok P = false \/
   bus = ESP_ERR_NO_MEM \/
   (bus = ESP_OK /\
    (dev = ESP_ERR_NO_MEM \/
     (dev = ESP_OK /\
      (t_create = ESP_ERR_NO_MEM \/
       (t_create = ESP_OK /\ t_start = ESP_ERR_NO_MEM)))))) /\
  (st = HD108_LLD_ERROR_NO_DMA <-> allocated /\ bus = ESP_ERR_NOT_FOUND) /\
  (st = HD108_LLD_ERROR_NO_CS <->
   allocated /\ bus = ESP_OK /\ dev = ESP_ERR_NOT_FOUND) /\
  (st = HD108_LLD_ERROR_SPI_IN_USE <->
   allocated /\
   (bus = ESP_ERR_INVALID_STATE \/
    (bus = ESP_OK /\ dev = ESP_OK /\
     (t_create = ESP_ERR_INVALID_STATE \/
      (t_create = ESP_OK /\ t_start = ESP_ERR_INVALID_STATE))))) /\
  st <> HD108_LLD_ERROR_LENGTH /\ st <> HD108_LLD_ERROR_DATA_RATE /\
  st <> HD108_LLD_ERROR_INDEX.
Proof.
  intros Hvalid. cbv zeta.
  init_past_checks Hvalid.
  walk_platform P ltac:(cbn; repeat split; intuition congruence).
Qed.

Lemma init_platform_errors_witness :
  config_valid two_pixels_10hz /\
  (init_status
     (hd108_lld_init
        (mk_platform true true (fun _ => 0) ESP_OK ESP_OK 5 ESP_OK
           ESP_ERR_INVALID_STATE)
        two_pixels_10hz) = HD108_LLD_ERROR_SPI_IN_USE).
Proof.
  assert (Hvalid : config_valid two_pixels_10hz).
  { split; [simpl; lia|]. split; [simpl; lia|].
    split; [discriminate | simpl; lia]. }
  split; [exact Hvalid|].
  apply (proj1 (proj2 (proj2 (proj2
           (init_platform_errors
              (mk_platform true true (fun _ => 0) ESP_OK ESP_OK 5 ESP_OK
                 ESP_ERR_INVALID_STATE)
              two_pixels_10hz Hvalid))))).
  cbn. split; [done|]. right. split; [done|]. split; [done|].
  right. by split.
Defined.

(** X13 (for which bus speeds the data rate can fail): with a strip length
    in [1, 1024] no frequency of the enumeration needs more than
    15,759,360 Hz, so from that bus speed on [hd108_lld_init] never
    returns [HD108_LLD_ERROR_DATA_RATE]; and none gets by with less than
    384 Hz, so below that an otherwise valid configuration always gets
    it. *)
Theorem data_rate_range P cfg :
  1 <= count cfg <= 1024 ->
  (15759360 <= spi_speed_hz cfg ->
   init_status (hd108_lld_init P cfg) <> HD108_LLD_ERROR_DATA_RATE) /\
  (spi_speed_hz cfg < 384 -> update_function cfg <> NULL ->
   hd108_lld_init P cfg
   = mk_init_result HD108_LLD_ERROR_DATA_RATE None []).
Proof.
  intros Hcount.
  pose proof (hz_range (frequency_hz cfg)) as Hf.
  pose proof (init_validation P cfg) as Hv. cbv zeta in Hv.
  rewrite (proj2 (count_check cfg) Hcount) in Hv.
  unfold HD108_LLD_MAX_SPI_SPEED in Hv.
  rewrite Z.gtb_ltb, rate_valid in Hv by done.
  split.
  - intros Hspeed.
    destruct (_ <? _) in Hv; [by rewrite Hv|].
    destruct (_ =? _) in Hv; [by rewrite Hv|].
    destruct (_ <? _) eqn:Hr in Hv; [apply Z.ltb_lt in Hr; nia|].
    by destruct Hv.
  - intros Hspeed Hcb.
    rewrite (proj2 (Z.ltb_ge _ _)) in Hv by lia.
    rewrite (proj2 (Z.eqb_neq _ _) (not_eq_sym Hcb)) in Hv.
    rewrite (proj2 (Z.ltb_lt _ _)) in Hv by nia. done.
Qed.

Lemma data_rate_range_witness :
  1 <= 1024 <= 1024 /\
  init_status
    (hd108_lld_init willing
       (mk_configuration 1 15759360 23 18 1024 HD108_LLD_UPDATE_120HZ
          0x40080000))
  <> HD108_LLD_ERROR_DATA_RATE.
Proof.
  split; [lia|].
  apply (data_rate_range willing
           (mk_configuration 1 15759360 23 18 1024 HD108_LLD_UPDATE_120HZ
              0x40080000)).
  - simpl; lia.
  - simpl; lia.
Defined.

(** ** The timer *)

(** X14 (no timer is left behind): [hd108_lld_start_timer_for_ctx] returns
    [ESP_OK] exactly when the timer was created and started. If the
    creation fails it returns that error and does not try to start; if the
    start fails it deletes the timer it created and returns the error of
    the start. *)
Theorem start_timer_outcome P f :
  let out := run (hd108_lld_start_timer_for_ctx P f) [] in
  let started := Ev_esp_timer_start_periodic (hd108_get_update_period_time f) in
  (out.1 = ESP_OK
   <-> esp_timer_create_res P = ESP_OK /\
       esp_timer_start_periodic_res P = ESP_OK) /\
  (esp_timer_create_res P <> ESP_OK ->
   out = (esp_timer_create_res P, [Ev_esp_timer_create])) /\
  (esp_timer_create_res P = ESP_OK ->
   esp_timer_start_periodic_res P <> ESP_OK ->
   out = (esp_timer_start_periodic_res P,
          [Ev_esp_timer_create; started; Ev_esp_timer_delete])) /\
  (esp_timer_create_res P = ESP_OK ->
   esp_timer_start_periodic_res P = ESP_OK ->
   out = (ESP_OK, [Ev_esp_timer_create; started])).
Proof.
  cbv zeta.
  unfold hd108_lld_start_timer_for_ctx, run, when, mbind, M_bind, bind,
    return_, ret, call. cbv beta.
  destruct (esp_timer_create_res P) eqn:Hc; cbn [negb is_ESP_OK];
    cbv beta iota;
    try (split; [by split; [|intros [? _]] | by repeat split]).
  destruct (esp_timer_start_periodic_res P) eqn:Hs; cbn [negb is_ESP_OK];
    cbv beta iota;
    (split; [by split; [|intros [_ ?]] | by repeat split]).
Qed.

(** X15 (the period is positive and the frame fits): the period of every
    frequency of the enumeration lies between 8333 and 1,000,000
    microseconds, and a higher frequency never has a longer period. For a
    configuration that passes the checks, the time the bus needs for one
    frame at the configured speed is less than the period: in microseconds,
    [bits * 1000000 / speed < period], and twice that time is below the
    period plus one microsecond. *)
Theorem period_and_transfer_time :
  (forall f g,
     8333 <= hd108_get_update_period_time f <= 1000000 /\
     (hz f <= hz g ->
      hd108_get_update_period_time g <= hd108_get_update_period_time f)) /\
  (forall cfg,
     config_valid cfg ->
     let bits := (16 + 8 * count cfg) * 8 in
     let period := hd108_get_update_period_time (frequency_hz cfg) in
     bits * 1000000 < spi_speed_hz cfg * period /\
     2 * bits * 1000000 < spi_speed_hz cfg * (period + 1)).
Proof.
  split.
  - intros f g. split; [destruct f; by vm_compute|].
    destruct f, g; vm_compute; intros H; try done; by destruct H.
  - intros cfg (Hcount & _ & _ & Hrate). cbv zeta.
    destruct (frequency_hz cfg); vm_compute hd108_get_update_period_time;
      simpl hz in Hrate; lia.
Qed.

(** ** The pixel copy on its own *)

Lemma pixel_word_uint16 p k : pixel_ok p -> is_uint16 (pixel_word p k).
Proof.
  intros Hp. unfold pixel_word.
  assert (Hmod : forall z, is_uint16 (to_uint16 z))
    by (intros z; unfold is_uint16, to_uint16; apply Z.mod_pos_bound; lia).
  destruct (k =? 0); [|by repeat case_match].
  rewrite pixel_word0_value by done.
  destruct Hp as (Hb & Hg & Hr & _).
  unfold is_uint16. destruct (rsv p); simpl; lia.
Qed.

(** What a copy that returned has stored. *)
Lemma copy_pixel_words_of_Some src buf dst buf' :
  pixel_ok src ->
  hd108_lld_copy_pixel src buf dst = Some buf' ->
  length buf' = length buf /\
  (forall k, 0 <= k < 4 ->
     exists hi lo,
       buf' !! Z.to_nat (dst + 2 * k) = Some hi /\
       buf' !! Z.to_nat (dst + 2 * k + 1) = Some lo /\
       lo = src_raw src (2 * k) /\ hi = src_raw src (2 * k + 1) /\
       hi * 256 + lo = pixel_word src k) /\
  (exists b, buf' !! Z.to_nat dst = Some b /\ Z.testbit b 7 = rsv src).
Proof.
  intros Hp Hcopy.
  destruct (copy_pixel_Some_inv _ _ _ _ Hcopy) as [Hdst Hlen].
  rewrite copy_pixel_Some in Hcopy by done.
  assert (buf' = splice buf (Z.to_nat dst) (copied_bytes src)) as ->
    by (unfold splice; congruence).
  clear Hcopy.
  assert (Hwords : forall k, 0 <= k < 4 ->
            src_raw src (2 * k + 1) * 256 + src_raw src (2 * k)
            = pixel_word src k).
  { intros k Hk. unfold src_raw.
    replace (Z.even (2 * k + 1)) with false
      by (rewrite Z.add_comm, Z.even_add_mul_2; reflexivity).
    replace (Z.even (2 * k)) with true
      by (symmetry; apply Z.even_spec; by exists k).
    replace ((2 * k + 1) / 2) with k by (Z.div_mod_to_equations; lia).
    replace (2 * k / 2) with k by (Z.div_mod_to_equations; lia).
    apply be16_value. by apply pixel_word_uint16. }
  split; [apply splice_len; (done || lia)|]. split.
  - intros k Hk. exists (src_raw src (2 * k + 1)), (src_raw src (2 * k)).
    rewrite !splice_lookup by (done || lia).
    rewrite !decide_True by lia.
    replace (Z.to_nat (dst + 2 * k) - Z.to_nat dst)%nat
      with (Z.to_nat (2 * k)) by lia.
    replace (Z.to_nat (dst + 2 * k + 1) - Z.to_nat dst)%nat
      with (Z.to_nat (2 * k + 1)) by lia.
    split; [|split; [|split; [done|split; [done|by apply Hwords]]]].
    all: assert (k = 0 \/ k = 1 \/ k = 2 \/ k = 3)
           as [-> | [-> | [-> | ->]]] by lia; reflexivity.
  - eexists. rewrite splice_lookup by (done || lia).
    rewrite decide_True by lia. rewrite Nat.sub_diag.
    split; [reflexivity|].
    unfold src_raw. change (Z.even 1) with false. change (1 / 2) with 0.
    cbv iota. unfold pixel_word. cbn [Z.eqb].
    rewrite Z.land_spec, Z.shiftr_spec by lia.
    change (7 + 8) with 15. change (Z.testbit 255 7) with true.
    rewrite andb_true_r.
    rewrite pixel_word0_value by done.
    destruct Hp as (Hb & Hg & Hr & _).
    rewrite Z.testbit_eqb by lia. change (2 ^ 15) with 32768.
    destruct (rsv src); simpl Z.b2z; apply Z.eqb_eq || apply Z.eqb_neq;
      Z.div_mod_to_equations; lia.
Qed.

(** X16 (the copy converts the byte order and nothing else): a copy whose
    eight destination bytes lie in the buffer returns, and only such a
    copy does. It keeps the length of the buffer and leaves, for each of
    the four words of the descriptor, the high byte and then the low byte
    at the destination, so the word read big endian from the buffer is the
    word the host holds; the unnamed bit of the descriptor is copied as it
    is, it is [hd108_lld_set_pixel] that sets it. *)
Theorem copy_pixel_words src buf dst :
  pixel_ok src ->
  (is_Some (hd108_lld_copy_pixel src buf dst)
   <-> 0 <= dst /\ dst + 8 <= Z.of_nat (length buf)) /\
  (forall buf',
     hd108_lld_copy_pixel src buf dst = Some buf' ->
     length buf' = length buf /\
     (forall k, 0 <= k < 4 ->
        exists hi lo,
          buf' !! Z.to_nat (dst + 2 * k) = Some hi /\
          buf' !! Z.to_nat (dst + 2 * k + 1) = Some lo /\
          lo = src_raw src (2 * k) /\ hi = src_raw src (2 * k + 1) /\
          hi * 256 + lo = pixel_word src k) /\
     (exists b, buf' !! Z.to_nat dst = Some b /\ Z.testbit b 7 = rsv src)).
Proof.
  intros Hp. split.
  - split.
    + intros [buf' Hcopy]. by apply copy_pixel_Some_inv in Hcopy.
    + intros [Hdst Hlen]. rewrite copy_pixel_Some by done. by eexists.
  - intros buf' Hcopy. exact (copy_pixel_words_of_Some _ _ _ _ Hp Hcopy).
Qed.

Lemma copy_pixel_words_witness :
  pixel_ok (pixel_3_7_15 false) /\
  exists buf' b,
    hd108_lld_copy_pixel (pixel_3_7_15 false) (replicate 32 0) 16 = Some buf' /\
    buf' !! Z.to_nat 16 = Some b /\
    Z.testbit b 7 = false.
Proof.
  assert (Hp : pixel_ok (pixel_3_7_15 false))
    by (unfold pixel_ok, is_uint16; simpl; lia).
  split; [exact Hp|].
  destruct (copy_pixel_words (pixel_3_7_15 false) (replicate 32 0) 16 Hp)
    as [Hsome Hwords].
  destruct (proj2 Hsome) as [buf' Hcopy]; [simpl; lia|].
  destruct (Hwords buf' Hcopy) as (_ & _ & b & Hb & Hbit).
  exists buf', b. split; [exact Hcopy|]. split; [exact Hb | exact Hbit].
Defined.
